(** * TooGoodToGo sensor platform: coordinator and sensor projections

    A shallow embedding of [custom_components/tgtg/sensor.py] and
    [custom_components/tgtg/const.py].

    The integration handles raw JSON payloads with dynamic typing, so the
    embedding has three layers:

    - [Py]: the fragment of the Python data model that the module relies on
      (values, exceptions, subscripting, membership, [int], [str], [pow],
      true division, addition), written once and used by every definition;
    - [Const] and [Sensor]: the module itself, function by function and in
      the order of the source;
    - the properties of the coordinator and of the sensor.

    Modelling conventions.
    - A Python [str] is a [string] holding its UTF-8 text. Equality,
      concatenation and the substring test are the same on code points and
      on UTF-8 bytes. [repr] and [int] are exact on ASCII text; [int] does
      not recognise non-ASCII digits or blanks, and [repr] copies non-ASCII
      bytes unchanged.
    - A Python [int] is an integer of any size. The interpreter's limit on
      decimal conversions (4300 digits) is applied by [int] to a string;
      [str] and [repr] of an integer are its decimal text whatever its
      size.
    - A Python [float] is a binary64 number, [spec_float] with precision 53
      and maximal exponent 1024. A NaN used as a dictionary key is found
      again (CPython compares keys by identity first).
    - A Python [dict] is an association list in insertion order, looked up
      with Python's key equality.
    - [await hass.async_add_executor_job(f, x)] is the call [f x]; logging
      is not modelled. *)

From Stdlib Require Import ZArith Ascii String List Bool Lia.
From Stdlib Require Import Floats.SpecFloat.
From stdpp Require Import base option list strings gmap pretty.

Local Open Scope Z_scope.

(* ===================================================================== *)
(** * The Python layer *)
(* ===================================================================== *)

Module Py.

(** ** Exceptions and results *)

(** The exception classes that can occur. [OtherError] stands for any other
    subclass of [Exception] raised by the API client (login errors, HTTP
    errors, ...), identified by its class name. *)
Inductive exn_class :=
| KeyError
| TypeError
| ValueError
| OverflowError
| ZeroDivisionError
| UpdateFailed
| OtherError (name : string).

(** An exception instance: its class and [str(err)]. The wording of the
    interpreter's own messages follows CPython 3.11. *)
Record pyexn := PyExn { exn_cls : exn_class; exn_str : string }.

Inductive res (A : Type) :=
| Ok (a : A)
| Err (e : pyexn).
Arguments Ok {A} a.
Arguments Err {A} e.

#[global] Instance res_ret : MRet res := fun A a => Ok a.
#[global] Instance res_bind : MBind res := fun A B f m =>
  match m with
  | Ok a => f a
  | Err e => Err e
  end.

Definition raise {A} (c : exn_class) (msg : string) : res A :=
  Err (PyExn c msg).

Definition is_ok {A} (r : res A) : bool :=
  match r with Ok _ => true | Err _ => false end.

Definition exn_class_eqb (c1 c2 : exn_class) : bool :=
  match c1, c2 with
  | KeyError, KeyError | TypeError, TypeError | ValueError, ValueError
  | OverflowError, OverflowError | ZeroDivisionError, ZeroDivisionError
  | UpdateFailed, UpdateFailed => true
  | OtherError n1, OtherError n2 => String.eqb n1 n2
  | _, _ => false
  end.

(** [try: body except (c1, ..., cn): handler]. None of the classes above is
    a subclass of another one of them, so [except] matches by equality. *)
Definition try_except {A} (body : res A) (classes : list exn_class)
    (handler : res A) : res A :=
  match body with
  | Ok a => Ok a
  | Err e =>
      if existsb (exn_class_eqb (exn_cls e)) classes then handler else Err e
  end.

(** [try: body except Exception as err: handler(err)]. *)
Definition try_except_Exception {A} (body : res A)
    (handler : pyexn -> res A) : res A :=
  match body with
  | Ok a => Ok a
  | Err e => handler e
  end.

(** ** Values *)

(** The values a decoded JSON payload or the YAML configuration can hold. *)
#[local] Set Warnings "-register-all".
Inductive pyval :=
| PNone
| PBool (b : bool)
| PInt (z : Z)
| PFloat (f : spec_float)
| PStr (s : string)
| PList (l : list pyval)
| PDict (d : list (pyval * pyval)).

Definition pydict := list (pyval * pyval).

Definition type_name (v : pyval) : string :=
  match v with
  | PNone => "NoneType"
  | PBool _ => "bool"
  | PInt _ => "int"
  | PFloat _ => "float"
  | PStr _ => "str"
  | PList _ => "list"
  | PDict _ => "dict"
  end.

(** ** Floats: binary64 *)

Definition prec : Z := 53.
Definition emax : Z := 1024.

Definition float_is_inf (f : spec_float) : bool :=
  match f with S754_infinity _ => true | _ => false end.

Definition float_is_zero (f : spec_float) : bool :=
  match f with S754_zero _ => true | _ => false end.

(** The integer [z] rounded to the nearest binary64 number, ties to even;
    an infinity when it is out of range. *)
Definition float_of_Z (z : Z) : spec_float :=
  binary_normalize prec emax z 0 false.

(** The quotient [a / b] of two integers ([b <> 0]) rounded once to the
    nearest binary64 number: the result of CPython's [long_true_divide]
    before its range check. *)
Definition round_quotient (a b : Z) : spec_float :=
  let sgn := xorb (a <? 0) (b <? 0) in
  match a with
  | Z0 => S754_zero (b <? 0)
  | _ =>
      let '(q, e, l) := SFdiv_core_binary prec emax (Z.abs a) 0 (Z.abs b) 0 in
      binary_round_aux prec emax sgn q e l
  end.

(** [float(z)] for an [int]. *)
Definition py_float_of_int (z : Z) : res spec_float :=
  let f := float_of_Z z in
  if float_is_inf f
  then raise OverflowError "int too large to convert to float"
  else Ok f.

(** The integral part of a finite float, towards zero. *)
Definition float_trunc (s : bool) (m : positive) (e : Z) : Z :=
  let v := if 0 <=? e then Zpos m * 2 ^ e else Zpos m / 2 ^ (- e) in
  if s then - v else v.

(** [f == z] for a float and an int: exact comparison of the two values. *)
Definition float_eq_Z (f : spec_float) (z : Z) : bool :=
  match f with
  | S754_zero _ => z =? 0
  | S754_finite s m e =>
      if 0 <=? e then float_trunc s m e =? z
      else (Zpos m mod 2 ^ (- e) =? 0) && (float_trunc s m e =? z)
  | _ => false
  end.

(** [f > 0] for a float. *)
Definition float_gt_zero (f : spec_float) : bool :=
  match f with
  | S754_finite false _ _ | S754_infinity false => true
  | _ => false
  end.

(** *** [repr] of a float: the shortest decimal string that reads back as
    the same binary64 number, the closest to it when there are several. *)

(** [D * 10^j] compared with [c * 2^e]. *)
Definition cmp_dec_bin (D j c e : Z) : comparison :=
  Z.compare (D * 10 ^ Z.max j 0 * 2 ^ Z.max (- e) 0)
            (c * 2 ^ Z.max e 0 * 10 ^ Z.max (- j) 0).

(** [floor (c * 2^e / 10^j)], and whether the quotient is exact. *)
Definition floor_dec (c e j : Z) : Z * bool :=
  let '(q, r) := Z.div_eucl (c * 2 ^ Z.max e 0 * 10 ^ Z.max (- j) 0)
                            (2 ^ Z.max (- e) 0 * 10 ^ Z.max j 0) in
  (q, r =? 0).

Fixpoint decpt_down (fuel : nat) (c e k : Z) : Z :=
  match fuel with
  | O => k
  | S fuel' =>
      match cmp_dec_bin 1 (k - 1) c e with
      | Gt => decpt_down fuel' c e (k - 1)
      | _ => k
      end
  end.

Fixpoint decpt_up (fuel : nat) (c e k : Z) : Z :=
  match fuel with
  | O => k
  | S fuel' =>
      match cmp_dec_bin 1 k c e with
      | Gt => k
      | _ => decpt_up fuel' c e (k + 1)
      end
  end.

(** The [k] with [10^(k-1) <= c * 2^e < 10^k], searched around the estimate
    [log2 (c * 2^e) * log10 2]. *)
Definition decpt_of (c e : Z) : Z :=
  let k0 := (Z.log2 c + e) * 30103 / 100000 in
  decpt_up 8 c e (decpt_down 8 c e k0).

(** Whether [D * 10^j] rounds to the float whose rounding interval is
    [lo * 2^e .. hi * 2^e]; the bounds belong to it when the mantissa is
    even. *)
Definition in_interval (lo hi e : Z) (incl : bool) (D j : Z) : bool :=
  match cmp_dec_bin D j lo e, cmp_dec_bin D j hi e with
  | Gt, Lt => true
  | Eq, Lt | Gt, Eq => incl
  | _, _ => false
  end.

(** Tries [n], [n + 1], ... significant digits; 17 always suffice. *)
Fixpoint shortest (fuel : nat) (n : Z) (lo x hi e : Z) (incl : bool) (k : Z)
  : Z * Z :=
  let j := k - n in
  let '(Dlo, exact) := floor_dec x e j in
  match fuel with
  | O => (Dlo, j)
  | S fuel' =>
      if exact then (Dlo, j)
      else
        let Dhi := Dlo + 1 in
        match in_interval lo hi e incl Dlo j, in_interval lo hi e incl Dhi j with
        | true, false => (Dlo, j)
        | false, true => (Dhi, j)
        | true, true =>
            match cmp_dec_bin (2 * Dlo + 1) j (2 * x) e with
            | Gt => (Dlo, j)
            | Lt => (Dhi, j)
            | Eq => (if Z.even Dlo then Dlo else Dhi, j)
            end
        | false, false => shortest fuel' (n + 1) lo x hi e incl k
        end
  end.

Fixpoint strip_zeros (fuel : nat) (D j : Z) : Z * Z :=
  match fuel with
  | O => (D, j)
  | S fuel' =>
      if (D mod 10 =? 0) && (0 <? D)
      then strip_zeros fuel' (D / 10) (j + 1)
      else (D, j)
  end.

(** The digits and the position of the decimal point of the positive
    binary64 number [m * 2^e]. *)
Definition float_digits (m : positive) (e : Z) : string * Z :=
  let M := Zpos m in
  let lo := if (M =? 2 ^ 52) && (-1074 <? e) then 4 * M - 1 else 4 * M - 2 in
  let '(D, j) := shortest 17 1 lo (4 * M) (4 * M + 2) (e - 2) (Z.even M)
                   (decpt_of (4 * M) (e - 2)) in
  let '(D, j) := strip_zeros 20 D j in
  let s := pretty (Z.to_N D) in
  (s, Z.of_nat (String.length s) + j).

Fixpoint zeros (n : nat) : string :=
  match n with O => "" | S n' => String "0" (zeros n') end.

Definition substring_from (n : nat) (s : string) : string :=
  substring n (String.length s - n) s.

(** The layout of [repr]: exponent notation when the decimal point is more
    than 16 places to the right or 4 or more to the left of the digits. *)
Definition format_repr (digits : string) (decpt : Z) : string :=
  let nd := Z.of_nat (String.length digits) in
  if (decpt <=? -4) || (16 <? decpt) then
    let ex := decpt - 1 in
    substring 0 1 digits
    +:+ (if 1 <? nd then "." +:+ substring_from 1 digits else "")
    +:+ "e" +:+ (if ex <? 0 then "-" else "+")
    +:+ (if Z.abs ex <? 10 then "0" else "") +:+ pretty (Z.to_N (Z.abs ex))
  else if decpt <=? 0 then
    "0." +:+ zeros (Z.to_nat (- decpt)) +:+ digits
  else if nd <=? decpt then
    digits +:+ zeros (Z.to_nat (decpt - nd)) +:+ ".0"
  else
    substring 0 (Z.to_nat decpt) digits
    +:+ "." +:+ substring_from (Z.to_nat decpt) digits.

(** [repr(f)], which is also [str(f)]. *)
Definition float_repr (f : spec_float) : string :=
  match f with
  | S754_nan => "nan"
  | S754_infinity s => if s then "-inf" else "inf"
  | S754_zero s => if s then "-0.0" else "0.0"
  | S754_finite s m e =>
      let '(d, k) := float_digits m e in
      (if s then "-" else "") +:+ format_repr d k
  end.

(** ** Strings *)

Definition dquote : ascii := ascii_of_nat 34.
Definition squote : ascii := ascii_of_nat 39.
Definition backslash : ascii := ascii_of_nat 92.

Definition quoted (q : ascii) (s : string) : string :=
  String q (s +:+ String q "").

Fixpoint str_mem (c : ascii) (s : string) : bool :=
  match s with
  | EmptyString => false
  | String c' s' => Ascii.eqb c c' || str_mem c s'
  end.

(** [p in s] for two strings. *)
Fixpoint is_substring (p s : string) : bool :=
  String.prefix p s ||
  match s with
  | EmptyString => false
  | String _ s' => is_substring p s'
  end.

Definition hex_digit (n : N) : ascii :=
  match n with
  | 10 => "a" | 11 => "b" | 12 => "c" | 13 => "d" | 14 => "e" | 15 => "f"
  | _ => pretty_N_char n
  end%N%char.

Definition escape_char (q c : ascii) : string :=
  let n := N_of_ascii c in
  if Ascii.eqb c q || Ascii.eqb c backslash then String backslash (String c "")
  else if (n =? 9)%N then String backslash "t"
  else if (n =? 10)%N then String backslash "n"
  else if (n =? 13)%N then String backslash "r"
  else if (n <? 32)%N || (n =? 127)%N then
    String backslash
      (String "x" (String (hex_digit (n / 16)) (String (hex_digit (n mod 16)) "")))
  else String c "".

Fixpoint escape_string (q : ascii) (s : string) : string :=
  match s with
  | EmptyString => ""
  | String c s' => escape_char q c +:+ escape_string q s'
  end.

(** [repr(s)] for a string: single quotes, unless the text has a single
    quote and no double quote. *)
Definition str_repr (s : string) : string :=
  let q := if str_mem squote s && negb (str_mem dquote s)
           then dquote else squote in
  quoted q (escape_string q s).

(** The characters of a string, one string per code point: a UTF-8
    continuation byte stays with the byte before it. *)
Definition is_continuation (c : ascii) : bool :=
  let n := N_of_ascii c in (128 <=? n)%N && (n <? 192)%N.

Fixpoint str_chars (s : string) : list string :=
  match s with
  | EmptyString => []
  | String c s' =>
      let rest := str_chars s' in
      let continued :=
        match s' with
        | String c' _ => is_continuation c'
        | EmptyString => false
        end in
      match rest with
      | ch :: chs =>
          if continued then String c ch :: chs else String c "" :: rest
      | [] => [String c ""]
      end
  end.

(** *** [int(s)] for a string *)

Definition is_space (c : ascii) : bool :=
  let n := N_of_ascii c in ((9 <=? n)%N && (n <=? 13)%N) || (n =? 32)%N.

Definition digit_val (c : ascii) : option Z :=
  let n := N_of_ascii c in
  if (48 <=? n)%N && (n <=? 57)%N then Some (Z.of_N n - 48) else None.

Fixpoint lstrip (s : list ascii) : list ascii :=
  match s with
  | c :: s' => if is_space c then lstrip s' else s
  | [] => []
  end.

Definition strip (s : list ascii) : list ascii :=
  rev (lstrip (rev (lstrip s))).

(** Digits with single underscores between them. *)
Fixpoint parse_digits (s : list ascii) (acc : Z) (after_digit : bool)
  : option Z :=
  match s with
  | [] => if after_digit then Some acc else None
  | c :: s' =>
      if Ascii.eqb c "_" then
        if after_digit then parse_digits s' acc false else None
      else
        match digit_val c with
        | Some d => parse_digits s' (10 * acc + d) true
        | None => None
        end
  end.

Definition parse_int (s : string) : option Z :=
  match strip (list_ascii_of_string s) with
  | c :: s' =>
      if Ascii.eqb c "-" then Z.opp <$> parse_digits s' 0 false
      else if Ascii.eqb c "+" then parse_digits s' 0 false
      else parse_digits (c :: s') 0 false
  | [] => None
  end.

(** The digits and underscores that [int] scans after the blanks and
    the sign, before it looks at the rest of the text. *)
Fixpoint scan_digits (s : list ascii) : list ascii :=
  match s with
  | c :: s' =>
      if Ascii.eqb c "_" || bool_decide (is_Some (digit_val c))
      then c :: scan_digits s' else []
  | [] => []
  end.

Definition count_digits (s : list ascii) : nat :=
  length (filter (fun c => is_Some (digit_val c)) s).

(** [sys.get_int_max_str_digits()], at its default. *)
Definition int_max_str_digits : nat := 4300.

(** The number of digits of a text whose well-formed run of digits is
    longer than the limit: [int] refuses it whatever follows the run. *)
Definition exceeds_digit_limit (s : string) : option nat :=
  let body := lstrip (list_ascii_of_string s) in
  let body :=
    match body with
    | c :: s' => if Ascii.eqb c "-" || Ascii.eqb c "+" then s' else body
    | [] => []
    end in
  let run := scan_digits body in
  match parse_digits run 0 false with
  | Some _ =>
      if (int_max_str_digits <? count_digits run)%nat
      then Some (count_digits run) else None
  | None => None
  end.

(** ** [repr] and [str] *)

Definition join (sep : string) (l : list string) : string :=
  match l with
  | [] => ""
  | x :: xs => fold_left (fun acc y => acc +:+ sep +:+ y) xs x
  end.

Fixpoint py_repr (v : pyval) : string :=
  match v with
  | PNone => "None"
  | PBool b => if b then "True" else "False"
  | PInt z => pretty z
  | PFloat f => float_repr f
  | PStr s => str_repr s
  | PList l => "[" +:+ join ", " (map py_repr l) +:+ "]"
  | PDict d =>
      "{" +:+ join ", "
                (map (fun kv => match kv with
                                | (k, x) => py_repr k +:+ ": " +:+ py_repr x
                                end) d) +:+ "}"
  end.

(** [str(v)] *)
Definition py_str (v : pyval) : string :=
  match v with
  | PStr s => s
  | _ => py_repr v
  end.

(** ** Dictionaries *)

(** Keys are compared with [==] (after a hash that agrees with it): numbers
    by value whatever their type, strings by content. [key_norm] sends each
    hashable value to a representative of its class. *)
Inductive pykey :=
| KNone
| KInt (z : Z)
| KFloat (f : spec_float)
| KStr (s : string).

#[global] Instance spec_float_eq_dec : EqDecision spec_float.
Proof. solve_decision. Defined.
#[global] Instance pykey_eq_dec : EqDecision pykey.
Proof. solve_decision. Defined.

(** Whether a float has an integral value. *)
Definition float_integral (f : spec_float) : option Z :=
  match f with
  | S754_zero _ => Some 0
  | S754_finite s m e =>
      if float_eq_Z f (float_trunc s m e) then Some (float_trunc s m e)
      else None
  | _ => None
  end.

Definition key_norm (k : pyval) : option pykey :=
  match k with
  | PNone => Some KNone
  | PBool b => Some (KInt (if b then 1 else 0))
  | PInt z => Some (KInt z)
  | PFloat f =>
      match float_integral f with
      | Some z => Some (KInt z)
      | None => Some (KFloat f)
      end
  | PStr s => Some (KStr s)
  | PList _ | PDict _ => None
  end.

Definition unhashable {A} (k : pyval) : res A :=
  raise TypeError ("unhashable type: '" +:+ type_name k +:+ "'").

Fixpoint lookup_key (d : pydict) (n : pykey) : option pyval :=
  match d with
  | [] => None
  | (k, v) :: d' =>
      if decide (key_norm k = Some n) then Some v else lookup_key d' n
  end.

(** An existing key keeps its place and its first spelling; a new one goes
    to the end. *)
Fixpoint insert_key (d : pydict) (n : pykey) (k v : pyval) : pydict :=
  match d with
  | [] => [(k, v)]
  | (k', v') :: d' =>
      if decide (key_norm k' = Some n) then (k', v) :: d'
      else (k', v') :: insert_key d' n k v
  end.

(** [d[k]] *)
Definition dict_getitem (d : pydict) (k : pyval) : res pyval :=
  match key_norm k with
  | None => unhashable k
  | Some n =>
      match lookup_key d n with
      | Some v => Ok v
      | None => raise KeyError (py_repr k)
      end
  end.

(** [d[k] = v] *)
Definition dict_setitem (d : pydict) (k v : pyval) : res pydict :=
  match key_norm k with
  | None => unhashable k
  | Some n => Ok (insert_key d n k v)
  end.

(** [d.get(k, default)] *)
Definition dict_get (d : pydict) (k dflt : pyval) : res pyval :=
  match key_norm k with
  | None => unhashable k
  | Some n => Ok (default dflt (lookup_key d n))
  end.

(** [k in d] *)
Definition dict_contains (d : pydict) (k : pyval) : res bool :=
  match key_norm k with
  | None => unhashable k
  | Some n => Ok (bool_decide (is_Some (lookup_key d n)))
  end.

(** ** Operations on values *)

(** [o[k]] for a string [k]. *)
Definition py_getitem_str (o : pyval) (k : string) : res pyval :=
  match o with
  | PDict d => dict_getitem d (PStr k)
  | PList _ => raise TypeError "list indices must be integers or slices, not str"
  | PStr _ => raise TypeError "string indices must be integers, not 'str'"
  | _ => raise TypeError ("'" +:+ type_name o +:+ "' object is not subscriptable")
  end.

(** [v == s] for a string [s]. *)
Definition py_eq_str (v : pyval) (s : string) : bool :=
  match v with
  | PStr s' => String.eqb s' s
  | _ => false
  end.

(** [k in o] for a string [k]: a key of a dictionary, an element of a list,
    a substring of a string. *)
Definition py_contains_str (k : string) (o : pyval) : res bool :=
  match o with
  | PDict d => dict_contains d (PStr k)
  | PList l => Ok (existsb (fun x => py_eq_str x k) l)
  | PStr s => Ok (is_substring k s)
  | _ => raise TypeError ("argument of type '" +:+ type_name o +:+ "' is not iterable")
  end.

(** The elements that [for x in o] goes through. *)
Definition py_iter (o : pyval) : res (list pyval) :=
  match o with
  | PList l => Ok l
  | PDict d => Ok (map fst d)
  | PStr s => Ok (map PStr (str_chars s))
  | _ => raise TypeError ("'" +:+ type_name o +:+ "' object is not iterable")
  end.

(** [int(v)] *)
Definition py_int (v : pyval) : res Z :=
  match v with
  | PInt z => Ok z
  | PBool b => Ok (if b then 1 else 0)
  | PFloat (S754_zero _) => Ok 0
  | PFloat (S754_finite s m e) => Ok (float_trunc s m e)
  | PFloat S754_nan => raise ValueError "cannot convert float NaN to integer"
  | PFloat (S754_infinity _) =>
      raise OverflowError "cannot convert float infinity to integer"
  | PStr s =>
      match exceeds_digit_limit s with
      | Some n =>
          raise ValueError
            ("Exceeds the limit (4300 digits) for integer string conversion: value has "
             +:+ pretty (Z.of_nat n)
             +:+ " digits; use sys.set_int_max_str_digits() to increase the limit")
      | None =>
          match parse_int s with
          | Some z => Ok z
          | None =>
              raise ValueError
                ("invalid literal for int() with base 10: " +:+ str_repr s)
          end
      end
  | _ =>
      raise TypeError
        ("int() argument must be a string, a bytes-like object or a real number, not '"
         +:+ type_name v +:+ "'")
  end.

(** [pow(10, n)] for an [int] [n]: an [int] when [n >= 0]; otherwise the
    float [10.0 ** float(n)], taken to be the binary64 number nearest to
    [10^n] (zero below the subnormal range). *)
Definition py_pow10 (n : Z) : res pyval :=
  if 0 <=? n then Ok (PInt (10 ^ n))
  else
    _ ← py_float_of_int n;
    Ok (PFloat (round_quotient 1 (10 ^ (- n)))).

(** [a / b] for an [int] [a]. *)
Definition py_truediv (a : Z) (b : pyval) : res pyval :=
  let int_div (b : Z) : res pyval :=
    if b =? 0 then raise ZeroDivisionError "division by zero"
    else
      let f := round_quotient a b in
      if float_is_inf f
      then raise OverflowError "integer division result too large for a float"
      else Ok (PFloat f) in
  match b with
  | PInt b => int_div b
  | PBool b => int_div (if b then 1 else 0)
  | PFloat f =>
      fa ← py_float_of_int a;
      if float_is_zero f then raise ZeroDivisionError "float division by zero"
      else Ok (PFloat (SFdiv prec emax fa f))
  | _ =>
      raise TypeError
        ("unsupported operand type(s) for /: 'int' and '" +:+ type_name b +:+ "'")
  end.

(** [s + v] for a string [s]. *)
Definition py_concat (s : string) (v : pyval) : res string :=
  match v with
  | PStr t => Ok (s +:+ t)
  | _ =>
      raise TypeError
        ("can only concatenate str (not " +:+ quoted dquote (type_name v)
         +:+ ") to str")
  end.

(** [a + b] for a number [a]. *)
Definition py_add (a b : pyval) : res pyval :=
  let bad : res pyval :=
    raise TypeError
      ("unsupported operand type(s) for +: '" +:+ type_name a +:+ "' and '"
       +:+ type_name b +:+ "'") in
  let as_num (v : pyval) : option (Z + spec_float) :=
    match v with
    | PInt z => Some (inl z)
    | PBool b => Some (inl (if b then 1 else 0))
    | PFloat f => Some (inr f)
    | _ => None
    end in
  match as_num a, as_num b with
  | Some (inl x), Some (inl y) => Ok (PInt (x + y))
  | Some (inl x), Some (inr g) =>
      f ← py_float_of_int x; Ok (PFloat (SFadd prec emax f g))
  | Some (inr f), Some (inl y) =>
      g ← py_float_of_int y; Ok (PFloat (SFadd prec emax f g))
  | Some (inr f), Some (inr g) => Ok (PFloat (SFadd prec emax f g))
  | _, _ => bad
  end.

(** [v > 0] *)
Definition py_gt_zero (v : pyval) : res bool :=
  match v with
  | PInt z => Ok (0 <? z)
  | PBool b => Ok b
  | PFloat f => Ok (float_gt_zero f)
  | _ =>
      raise TypeError
        ("'>' not supported between instances of '" +:+ type_name v
         +:+ "' and 'int'")
  end.

End Py.

Import Py.

(** [for x in l: s = body(s, x)], stopping at the first exception. *)
Fixpoint for_each {A S : Type} (body : S -> A -> res S) (l : list A) (s : S)
  : res S :=
  match l with
  | [] => Ok s
  | x :: l' => s' ← body s x; for_each body l' s'
  end.

(** [o[k1][k2]...] *)
Definition subscript (o : pyval) (keys : list string) : res pyval :=
  for_each py_getitem_str keys o.

(* ===================================================================== *)
(** * const.py *)
(* ===================================================================== *)

Module Const.

Definition DOMAIN : string := "tgtg".

Definition CONF_ITEM : string := "item".
Definition CONF_REFRESH_TOKEN : string := "refresh_token".
Definition CONF_COOKIE : string := "cookie".
Definition CONF_USER_AGENT : string := "user_agent".

Definition ATTR_ITEM_ID : string := "item_id".
Definition ATTR_ITEM_URL : string := "item_url".
Definition ATTR_PRICE : string := "item_price".
Definition ATTR_VALUE : string := "original_value".
Definition ATTR_PICKUP_START : string := "pickup_start".
Definition ATTR_PICKUP_END : string := "pickup_end".
Definition ATTR_SOLDOUT_TIMESTAMP : string := "soldout_timestamp".
Definition ATTR_ORDERS_PLACED : string := "orders_placed".
Definition ATTR_TOTAL_QUANTITY_ORDERED : string := "total_quantity_ordered".
Definition ATTR_PICKUP_WINDOW_CHANGED : string := "pickup_window_changed".
Definition ATTR_CANCEL_UNTIL : string := "cancel_until".
Definition ATTR_LOGO_URL : string := "logo_url".
Definition ATTR_COVER_URL : string := "cover_url".

(** minutes *)
Definition DEFAULT_UPDATE_INTERVAL : Z := 30.

End Const.

Import Const.

(* ===================================================================== *)
(** * sensor.py *)
(* ===================================================================== *)

(** The two calls the module makes on the [tgtg] client, as the answers the
    client gives during one refresh cycle. *)
Record TgtgClient := {
  get_item : string -> res pyval;
  get_favorites : res pyval;
}.

(** [data[k]] for the coordinator's [data], which is [None] until the first
    successful refresh. *)
Definition data_getitem (data : option pydict) (k : pyval) : res pyval :=
  match data with
  | None => raise TypeError "'NoneType' object is not subscriptable"
  | Some d => dict_getitem d k
  end.

(** ** class TGTGDataUpdateCoordinator *)

Module TGTGDataUpdateCoordinator.

Record t := {
  tgtg_client : TgtgClient;
  items : list string;
  data : option pydict;
  last_update_success : bool;
}.

(** Modelled from the spec: the base class [DataUpdateCoordinator] belongs
    to the host platform and is not in the repository. It starts with no
    snapshot. *)
Definition __init__ (tgtg_client : TgtgClient) (items : list string) : t :=
  {| tgtg_client := tgtg_client; items := items;
     data := None; last_update_success := true |}.

Definition _async_update_data (self : t) : res pydict :=
  try_except_Exception
    (let data : pydict := [] in
     data ← dict_setitem data (PStr "orders") (PStr "");
     if bool_decide (items self ≠ [""]) then
       for_each
         (fun data item_id =>
            item_data ← get_item (tgtg_client self) item_id;
            dict_setitem data (PStr item_id) item_data)
         (items self) data
     else
       favorites ← get_favorites (tgtg_client self);
       favorites ← py_iter favorites;
       for_each
         (fun data item =>
            item_id ← subscript item ["item"; "item_id"];
            dict_setitem data item_id item)
         favorites data)
    (fun err =>
       raise UpdateFailed
         ("Error communicating with TGTG API: " +:+ exn_str err)).

(** Modelled from the spec: [async_refresh] of the base class, which is not
    in the repository. "No partial snapshot is published, and the previous
    snapshot (if any) remains the last-known-good value exposed to consumers
    until the next successful cycle"; on success the snapshot is "replaced
    atomically". *)
Definition async_refresh (self : t) : t :=
  match _async_update_data self with
  | Ok d =>
      {| tgtg_client := tgtg_client self; items := items self;
         data := Some d; last_update_success := true |}
  | Err _ =>
      {| tgtg_client := tgtg_client self; items := items self;
         data := data self; last_update_success := false |}
  end.

End TGTGDataUpdateCoordinator.

(** ** class TGTGSensor *)

Module TGTGSensor.

Import TGTGDataUpdateCoordinator.

(** The sensor's own fields. Its [coordinator] field is a reference to the
    one shared coordinator, so every method below takes the coordinator as
    it is at the time of the call. [item_id] is annotated [str]; under the
    favorites policy it is whichever key the payload provided. *)
Record t := {
  item_id : pyval;
  _store_name : pyval;
}.

Definition __init__ (coordinator : TGTGDataUpdateCoordinator.t)
    (item_id : pyval) : res t :=
  entry ← data_getitem (data coordinator) item_id;
  store_name ← py_getitem_str entry "display_name";
  Ok {| item_id := item_id; _store_name := store_name |}.

Definition name (self : t) : string := "TGTG " +:+ py_str (_store_name self).

Definition unique_id (self : t) : string := "tgtg_" +:+ py_str (item_id self).

Definition icon (self : t) : string := "mdi:storefront-outline".

Definition unit_of_measurement (self : t) : string := "pcs".

Definition native_value (coordinator : TGTGDataUpdateCoordinator.t)
    (self : t) : res pyval :=
  try_except
    (entry ← data_getitem (data coordinator) (item_id self);
     py_getitem_str entry "items_available")
    [KeyError; TypeError]
    (Ok PNone).

(** The attribute dictionary built by [extra_state_attributes]. *)
Abbreviation attrs := (gmap string pyval).

(** The expression that formats [item_price] and, with the other field
    name, [item_value]:
    [str(int(a["item"][f]["minor_units"]) / pow(10, int(a["item"][f]["decimals"])))
     + " " + a["item"][f]["code"]]. *)
Definition amount (tgtg_answer : pyval) (field : string) : res pyval :=
  minor_units ← subscript tgtg_answer ["item"; field; "minor_units"];
  minor_units ← py_int minor_units;
  decimals ← subscript tgtg_answer ["item"; field; "decimals"];
  decimals ← py_int decimals;
  divisor ← py_pow10 decimals;
  quotient ← py_truediv minor_units divisor;
  code ← subscript tgtg_answer ["item"; field; "code"];
  text ← py_concat (py_str quotient +:+ " ") code;
  Ok (PStr text).

(** [if key in o[path]: data[attr] = value(o)] *)
Definition set_if_in (key : string) (o : pyval) (path : list string)
    (body : attrs -> res attrs) (data : attrs) : res attrs :=
  container ← subscript o path;
  present ← py_contains_str key container;
  if present : bool then body data else Ok data.

(** The statements of [extra_state_attributes] that read the listing. *)
Definition listing_attributes (tgtg_answer : pyval) : res attrs :=
  let data : attrs := ∅ in
  data ← set_if_in "item" tgtg_answer []
    (fun data =>
       data ← set_if_in "item_id" tgtg_answer ["item"]
         (fun data =>
            v ← subscript tgtg_answer ["item"; "item_id"];
            let data := <[ATTR_ITEM_ID := v]> data in
            v ← subscript tgtg_answer ["item"; "item_id"];
            Ok (<[ATTR_ITEM_URL :=
                    PStr ("https://share.toogoodtogo.com/item/" +:+ py_str v)]>
                  data))
         data;
       data ← set_if_in "item_price" tgtg_answer ["item"]
         (fun data =>
            v ← amount tgtg_answer "item_price"; Ok (<[ATTR_PRICE := v]> data))
         data;
       data ← set_if_in "item_value" tgtg_answer ["item"]
         (fun data =>
            v ← amount tgtg_answer "item_value"; Ok (<[ATTR_VALUE := v]> data))
         data;
       data ← set_if_in "logo_picture" tgtg_answer ["item"]
         (fun data =>
            v ← subscript tgtg_answer ["item"; "logo_picture"; "current_url"];
            Ok (<[ATTR_LOGO_URL := v]> data))
         data;
       set_if_in "cover_picture" tgtg_answer ["item"]
         (fun data =>
            v ← subscript tgtg_answer ["item"; "cover_picture"; "current_url"];
            Ok (<[ATTR_COVER_URL := v]> data))
         data)
    data;
  data ← set_if_in "pickup_interval" tgtg_answer []
    (fun data =>
       data ← set_if_in "start" tgtg_answer ["pickup_interval"]
         (fun data =>
            v ← subscript tgtg_answer ["pickup_interval"; "start"];
            Ok (<[ATTR_PICKUP_START := v]> data))
         data;
       set_if_in "end" tgtg_answer ["pickup_interval"]
         (fun data =>
            v ← subscript tgtg_answer ["pickup_interval"; "end"];
            Ok (<[ATTR_PICKUP_END := v]> data))
         data)
    data;
  set_if_in "sold_out_at" tgtg_answer []
    (fun data =>
       v ← subscript tgtg_answer ["sold_out_at"];
       Ok (<[ATTR_SOLDOUT_TIMESTAMP := v]> data))
    data.

(** The state of the loop over the orders: the attributes, [orders_placed]
    and [total_quantity_ordered]. *)
Definition order_state : Type := attrs * Z * pyval.

(** The body of [for order in tgtg_orders]. *)
Definition order_step (self : t) (st : order_state) (order : pyval)
  : res order_state :=
  let '(data, orders_placed, total_quantity_ordered) := st in
  has_id ← py_contains_str "item_id" order;
  if has_id : bool then
    order_item ← py_getitem_str order "item_id";
    if py_eq_str order_item (py_str (item_id self)) then
      let orders_placed := orders_placed + 1 in
      has_quantity ← py_contains_str "quantity" order;
      total_quantity_ordered ←
        (if has_quantity : bool then
           quantity ← py_getitem_str order "quantity";
           py_add total_quantity_ordered quantity
         else Ok total_quantity_ordered);
      has_changed ← py_contains_str "pickup_window_changed" order;
      data ←
        (if has_changed : bool then
           v ← py_getitem_str order "pickup_window_changed";
           Ok (<[ATTR_PICKUP_WINDOW_CHANGED := v]> data)
         else Ok data);
      has_cancel ← py_contains_str "cancel_until" order;
      data ←
        (if has_cancel : bool then
           v ← py_getitem_str order "cancel_until";
           Ok (<[ATTR_CANCEL_UNTIL := v]> data)
         else Ok data);
      Ok (data, orders_placed, total_quantity_ordered)
    else Ok st
  else Ok st.

(** The statements of [extra_state_attributes] from [orders_placed = 0] to
    [return data]. *)
Definition orders_attributes (self : t) (tgtg_orders : pyval) (data : attrs)
  : res attrs :=
  orders ← py_iter tgtg_orders;
  '(data, orders_placed, total_quantity_ordered) ←
    for_each (order_step self) orders (data, 0, PInt 0);
  let data := <[ATTR_ORDERS_PLACED := PInt orders_placed]> data in
  positive ← py_gt_zero total_quantity_ordered;
  if positive : bool
  then Ok (<[ATTR_TOTAL_QUANTITY_ORDERED := total_quantity_ordered]> data)
  else Ok data.

Definition extra_state_attributes (coordinator : TGTGDataUpdateCoordinator.t)
    (self : t) : res attrs :=
  try_except
    (tgtg_answer ← data_getitem (data coordinator) (item_id self);
     tgtg_orders ←
       match data coordinator with
       | Some d => dict_get d (PStr "orders") (PList [])
       | None => raise TypeError "'NoneType' object is not subscriptable"
       end;
     data ← listing_attributes tgtg_answer;
     orders_attributes self tgtg_orders data)
    [KeyError; TypeError]
    (Ok ∅).

End TGTGSensor.

(** ** Notions used to state the properties of the refresh cycle *)

Module Coordinator.

Import TGTGDataUpdateCoordinator.

(** The snapshot before the listings are stored. *)
Definition placeholder : pydict := [(PStr "orders", PStr "")].

(** The two loop bodies of [_async_update_data]. *)
Definition store_item (client : TgtgClient) (data : pydict) (item_id : string)
  : res pydict :=
  item_data ← get_item client item_id;
  dict_setitem data (PStr item_id) item_data.

Definition entry_key (item : pyval) : res pyval :=
  subscript item ["item"; "item_id"].

Definition store_favorite (data : pydict) (item : pyval) : res pydict :=
  item_id ← entry_key item;
  dict_setitem data item_id item.

(** The exception that the cycle raises for the error [err]. *)
Definition update_failed (err : pyexn) : pyexn :=
  PyExn UpdateFailed ("Error communicating with TGTG API: " +:+ exn_str err).

(** What the [try] block computes under each policy. *)
Definition fetch_all (self : t) : res pydict :=
  if bool_decide (items self ≠ [""]) then
    for_each (store_item (tgtg_client self)) (items self) placeholder
  else
    favorites ← get_favorites (tgtg_client self);
    favorites ← py_iter favorites;
    for_each store_favorite favorites placeholder.

(** A fetch call of the cycle raises [e]. *)
Definition fetch_raises (self : t) (e : pyexn) : Prop :=
  if bool_decide (items self ≠ [""])
  then ∃ id, id ∈ items self ∧ get_item (tgtg_client self) id = Err e
  else get_favorites (tgtg_client self) = Err e.

(** The favorites that the cycle goes through. *)
Definition favorites_of (self : t) : res (list pyval) :=
  get_favorites (tgtg_client self) ≫= py_iter.

(** [n] is the key of a configured listing (explicit policy) or of a
    favorite entry (favorites policy). *)
Definition is_listing_key (self : t) (n : pykey) : Prop :=
  if bool_decide (items self ≠ [""])
  then ∃ id, id ∈ items self ∧ n = KStr id
  else ∃ favs entry k, favorites_of self = Ok favs ∧ entry ∈ favs ∧
         entry_key entry = Ok k ∧ key_norm k = Some n.

End Coordinator.

(** ** Notions used to state the properties of the sensor *)

Module Sensor.

Import TGTGSensor.

(** The listing [answer] has the amount [field] ([item_price] or
    [item_value]) with integers [minor_units] and [decimals] and the
    currency code [code]. *)
Definition has_amount (answer : pyval) (field : string)
    (minor_units decimals : Z) (code : string) : Prop :=
  subscript answer ["item"; field; "minor_units"] = Ok (PInt minor_units) ∧
  subscript answer ["item"; field; "decimals"] = Ok (PInt decimals) ∧
  subscript answer ["item"; field; "code"] = Ok (PStr code).


(** An order record: a dictionary whose [quantity], when present, is an
    integer. *)
Definition order_record (order : pyval) : Prop :=
  ∃ fields, order = PDict fields ∧
    ∀ q, lookup_key fields (KStr "quantity") = Some q → ∃ z, q = PInt z.

(** The order is for the listing [x]: its [item_id] is the string [x]. *)
Definition order_for (x : string) (order : pyval) : bool :=
  match order with
  | PDict fields =>
      match lookup_key fields (KStr "item_id") with
      | Some v => py_eq_str v x
      | None => false
      end
  | _ => false
  end.

Definition order_quantity (order : pyval) : Z :=
  match order with
  | PDict fields =>
      match lookup_key fields (KStr "quantity") with
      | Some (PInt z) => z
      | _ => 0
      end
  | _ => 0
  end.

(** The count of the orders for [x] and the sum of their quantities. *)
Definition orders_placed_for (x : string) (orders : list pyval) : Z :=
  Z.of_nat (length (filter (fun o => order_for x o = true) orders)).

Definition quantity_ordered_for (x : string) (orders : list pyval) : Z :=
  foldr Z.add 0 (order_quantity <$> filter (fun o => order_for x o = true) orders).

(** Subscripting raises nothing but [KeyError] and [TypeError]. *)
Definition lookup_error (e : pyexn) : Prop :=
  exn_cls e = KeyError ∨ exn_cls e = TypeError.

(** The statements [f] leave the attribute [k] as it is. *)
Definition keeps (k : string) (f : gmap string pyval → res (gmap string pyval)) : Prop :=
  ∀ d d', f d = Ok d' → d' !! k = d !! k.

(** The attributes that [listing_attributes] can set. *)
Definition listing_names : list string :=
  [ATTR_ITEM_ID; ATTR_ITEM_URL; ATTR_PRICE; ATTR_VALUE; ATTR_LOGO_URL;
   ATTR_COVER_URL; ATTR_PICKUP_START; ATTR_PICKUP_END; ATTR_SOLDOUT_TIMESTAMP].

(** The attributes that the statements after the listing can set. *)
Definition order_names : list string :=
  [ATTR_PICKUP_WINDOW_CHANGED; ATTR_CANCEL_UNTIL; ATTR_ORDERS_PLACED;
   ATTR_TOTAL_QUANTITY_ORDERED].

End Sensor.

(** ** Concrete payloads and clients *)

Module Examples.

Import TGTGDataUpdateCoordinator.

Definition money (minor_units decimals : Z) (code : string) : pyval :=
  PDict [(PStr "minor_units", PInt minor_units);
         (PStr "decimals", PInt decimals);
         (PStr "code", PStr code)].

Definition picture (url : string) : pyval :=
  PDict [(PStr "current_url", PStr url)].

(** A listing as the API returns it. *)
Definition listing (item_id display_name : string) (items_available : Z)
  : pyval :=
  PDict [(PStr "display_name", PStr display_name);
         (PStr "items_available", PInt items_available);
         (PStr "item",
          PDict [(PStr "item_id", PStr item_id);
                 (PStr "item_price", money 250 2 "EUR");
                 (PStr "item_value", money 1000 2 "EUR");
                 (PStr "logo_picture", picture "https://img.example/logo.png");
                 (PStr "cover_picture", picture "https://img.example/cover.png")])].

Definition coordinator_with (client : TgtgClient) (items : list string)
    (data : option pydict) : TGTGDataUpdateCoordinator.t :=
  {| tgtg_client := client; items := items; data := data;
     last_update_success := true |}.

(** A client whose [get_item] fails for every listing but ["1"]. *)
Definition api_error : pyexn := PyExn (OtherError "TgtgAPIError") "(403, 'Forbidden')".

Definition failing_client : TgtgClient :=
  {| get_item := fun id =>
       if String.eqb id "1" then Ok (listing "1" "Bakery X" 3) else Err api_error;
     get_favorites := Err api_error |}.

Definition old_snapshot : pydict :=
  [(PStr "orders", PStr ""); (PStr "1", listing "1" "Bakery X" 5)].

Definition failing_coordinator : TGTGDataUpdateCoordinator.t :=
  coordinator_with failing_client ["1"; "2"] (Some old_snapshot).

(** A client that answers every request with the listing 77, whatever the
    identifier requested. *)
Definition constant_client : TgtgClient :=
  {| get_item := fun _ => Ok (listing "77" "Bakery X" 3);
     get_favorites := Ok (PList [listing "77" "Bakery X" 3]) |}.

Definition explicit_coordinator : TGTGDataUpdateCoordinator.t :=
  coordinator_with constant_client ["42"; "43"] None.

(** Favorites in which the listing 1 comes twice. *)
Definition twice_client : TgtgClient :=
  {| get_item := fun _ => Err api_error;
     get_favorites :=
       Ok (PList [listing "1" "Bakery X" 3; listing "1" "Bakery X" 0]) |}.

Definition twice_coordinator : TGTGDataUpdateCoordinator.t :=
  coordinator_with twice_client [""] None.

Definition favorites_coordinator : TGTGDataUpdateCoordinator.t :=
  coordinator_with constant_client [""] None.

(** A configuration that names the listing identifier ["orders"]. *)
Definition orders_coordinator : TGTGDataUpdateCoordinator.t :=
  coordinator_with constant_client ["orders"] None.

(** A listing without [display_name]. *)
Definition nameless_listing : pyval :=
  PDict [(PStr "items_available", PInt 3)].

Definition nameless_client : TgtgClient :=
  {| get_item := fun _ => Ok nameless_listing;
     get_favorites := Ok (PList []) |}.

(** The coordinator after its first refresh, configured with the listing
    ["123"]. *)
Definition nameless_coordinator : TGTGDataUpdateCoordinator.t :=
  async_refresh (TGTGDataUpdateCoordinator.__init__ nameless_client ["123"]).

(** A listing whose price is not a number. *)
Definition unpriced_listing : pyval :=
  PDict [(PStr "display_name", PStr "Bakery X");
         (PStr "items_available", PInt 3);
         (PStr "item",
          PDict [(PStr "item_id", PStr "42");
                 (PStr "item_price",
                  PDict [(PStr "minor_units", PStr "abc");
                         (PStr "decimals", PInt 2);
                         (PStr "code", PStr "EUR")])])].

Definition unpriced_client : TgtgClient :=
  {| get_item := fun _ => Ok unpriced_listing;
     get_favorites := Ok (PList [unpriced_listing]) |}.

Definition unpriced_coordinator : TGTGDataUpdateCoordinator.t :=
  async_refresh (TGTGDataUpdateCoordinator.__init__ unpriced_client [""]).

Definition sensor_42 : TGTGSensor.t :=
  {| TGTGSensor.item_id := PStr "42";
     TGTGSensor._store_name := PStr "Bakery X" |}.

Definition sensor_99 : TGTGSensor.t :=
  {| TGTGSensor.item_id := PStr "99";
     TGTGSensor._store_name := PStr "Bakery Y" |}.

(** The orders of the specification's example, in a snapshot with the
    listings 42 and 99. *)
Definition order (item_id : string) (quantity : Z) : pyval :=
  PDict [(PStr "item_id", PStr item_id); (PStr "quantity", PInt quantity)].

Definition three_orders : list pyval :=
  [order "42" 2; order "42" 1; order "7" 5].

Definition ordered_snapshot : pydict :=
  [(PStr "orders", PList three_orders);
   (PStr "42", listing "42" "Bakery X" 3);
   (PStr "99", listing "99" "Bakery Y" 0)].

Definition ordered_coordinator : TGTGDataUpdateCoordinator.t :=
  coordinator_with constant_client [""] (Some ordered_snapshot).

(** A listing whose price has no fields. *)
Definition priceless_listing : pyval :=
  PDict [(PStr "display_name", PStr "Bakery X");
         (PStr "items_available", PInt 3);
         (PStr "item",
          PDict [(PStr "item_id", PStr "42"); (PStr "item_price", PDict [])])].

Definition priceless_client : TgtgClient :=
  {| get_item := fun _ => Ok priceless_listing;
     get_favorites := Ok (PList [priceless_listing]) |}.

Definition priceless_coordinator : TGTGDataUpdateCoordinator.t :=
  coordinator_with priceless_client ["42"] None.

Definition priceless_snapshot : pydict :=
  [(PStr "orders", PStr ""); (PStr "42", priceless_listing)].

(** The three orders next to a listing 42 whose price has no fields. *)
Definition priceless_ordered_coordinator : TGTGDataUpdateCoordinator.t :=
  coordinator_with priceless_client ["42"]
    (Some [(PStr "orders", PList three_orders); (PStr "42", priceless_listing)]).

Definition sensor_77 : TGTGSensor.t :=
  {| TGTGSensor.item_id := PStr "77";
     TGTGSensor._store_name := PStr "Bakery X" |}.

(** The attributes that a [listing] gives. *)
Definition listing_attrs (item_id : string) : gmap string pyval :=
  list_to_map
    [(ATTR_ITEM_ID, PStr item_id);
     (ATTR_ITEM_URL, PStr ("https://share.toogoodtogo.com/item/" +:+ item_id));
     (ATTR_PRICE, PStr "2.5 EUR");
     (ATTR_VALUE, PStr "10.0 EUR");
     (ATTR_LOGO_URL, PStr "https://img.example/logo.png");
     (ATTR_COVER_URL, PStr "https://img.example/cover.png")].

(** The attributes of the listing 77 in [favorites_snapshot] below. *)
Definition attributes_77 : gmap string pyval :=
  <[ATTR_ORDERS_PLACED := PInt 0]> (listing_attrs "77").

(** The snapshots that the cycles above produce. *)
Definition explicit_snapshot : pydict :=
  [(PStr "orders", PStr "");
   (PStr "42", listing "77" "Bakery X" 3);
   (PStr "43", listing "77" "Bakery X" 3)].

Definition twice_snapshot : pydict :=
  [(PStr "orders", PStr ""); (PStr "1", listing "1" "Bakery X" 0)].

Definition favorites_snapshot : pydict :=
  [(PStr "orders", PStr ""); (PStr "77", listing "77" "Bakery X" 3)].

Definition orders_snapshot : pydict :=
  [(PStr "orders", listing "77" "Bakery X" 3)].





(** A listing whose price is too large for a float, and the coordinator
    after its first refresh on it. *)
Definition overpriced_listing : pyval :=
  PDict [(PStr "display_name", PStr "Bakery X");
         (PStr "items_available", PInt 3);
         (PStr "item",
          PDict [(PStr "item_id", PStr "42");
                 (PStr "item_price", money (10 ^ 400) 2 "EUR")])].

Definition overpriced_client : TgtgClient :=
  {| get_item := fun _ => Ok overpriced_listing;
     get_favorites := Ok (PList [overpriced_listing]) |}.

Definition overpriced_coordinator : TGTGDataUpdateCoordinator.t :=
  async_refresh (TGTGDataUpdateCoordinator.__init__ overpriced_client [""]).

End Examples.

(** ** The claims that do not hold as they are worded *)

Module Claims.

Import TGTGDataUpdateCoordinator Coordinator Sensor.

(** Every favorite entry is found under its own [item.item_id]. *)
Definition every_favorite_is_stored (self : TGTGDataUpdateCoordinator.t)
  : Prop :=
  ∀ favs d entry,
    items self = [""] → favorites_of self = Ok favs →
    _async_update_data self = Ok d → entry ∈ favs →
    ∃ k, entry_key entry = Ok k ∧ dict_getitem d k = Ok entry.

(** Every snapshot has the key ["orders"], set to the empty placeholder,
    and a key per listing. *)
Definition orders_is_placeholder (self : TGTGDataUpdateCoordinator.t)
  : Prop :=
  ∀ d, _async_update_data self = Ok d →
    dict_getitem d (PStr "orders") = Ok (PStr "") ∧
    ∀ n, is_listing_key self n → is_Some (lookup_key d n).


(** Whatever the order records of the snapshot, the sensor reports their
    count and, when it is positive, the sum of their quantities. *)
Definition orders_are_reported (coordinator : TGTGDataUpdateCoordinator.t)
    (self : TGTGSensor.t) : Prop :=
  ∀ d orders,
    data coordinator = Some d →
    dict_getitem d (PStr "orders") = Ok (PList orders) →
    Forall order_record orders →
    let x := py_str (TGTGSensor.item_id self) in
    ∃ attrs,
      TGTGSensor.extra_state_attributes coordinator self = Ok attrs ∧
      attrs !! ATTR_ORDERS_PLACED = Some (PInt (orders_placed_for x orders)) ∧
      attrs !! ATTR_TOTAL_QUANTITY_ORDERED
        = (if 0 <? quantity_ordered_for x orders
           then Some (PInt (quantity_ordered_for x orders)) else None).

(** On every snapshot that the coordinator produces, every sensor reports
    [orders_placed = 0] and none of the three other order attributes. *)
Definition no_order_is_reported (producer : TGTGDataUpdateCoordinator.t)
  : Prop :=
  ∀ d coordinator item_id self,
    _async_update_data producer = Ok d →
    data coordinator = Some d →
    TGTGSensor.__init__ coordinator item_id = Ok self →
    ∃ attrs,
      TGTGSensor.extra_state_attributes coordinator self = Ok attrs ∧
      attrs !! ATTR_ORDERS_PLACED = Some (PInt 0) ∧
      attrs !! ATTR_TOTAL_QUANTITY_ORDERED = None ∧
      attrs !! ATTR_PICKUP_WINDOW_CHANGED = None ∧
      attrs !! ATTR_CANCEL_UNTIL = None.

End Claims.

(* ===================================================================== *)
(** * sensor.py: the platform setup *)
(* ===================================================================== *)

Module Platform.

Import TGTGDataUpdateCoordinator.

(** [k in coordinator.data] *)
Definition data_contains (data : option pydict) (k : pyval) : res bool :=
  match data with
  | None => raise TypeError "argument of type 'NoneType' is not iterable"
  | Some d => dict_contains d k
  end.

(** The keys that [for item_id in coordinator.data] goes through. *)
Definition data_iter (data : option pydict) : res (list pyval) :=
  match data with
  | None => raise TypeError "'NoneType' object is not iterable"
  | Some d => Ok (map fst d)
  end.

(** A loop inside a [try] block that updates a list in place: what the
    loop has built stays when a step raises. *)
Fixpoint for_each_keep {A S : Type} (body : S -> A -> res S) (l : list A)
    (s : S) : S * option pyexn :=
  match l with
  | [] => (s, None)
  | x :: l' =>
      match body s x with
      | Ok s' => for_each_keep body l' s'
      | Err e => (s, Some e)
      end
  end.

(** The body of the loop over the configured identifiers. *)
Definition add_configured (coordinator : TGTGDataUpdateCoordinator.t)
    (entities : list TGTGSensor.t) (item_id : string)
  : res (list TGTGSensor.t) :=
  present ← data_contains (data coordinator) (PStr item_id);
  if present : bool then
    sensor ← TGTGSensor.__init__ coordinator (PStr item_id);
    Ok (entities ++ [sensor])
  else Ok entities.

(** The body of the loop over the keys of the snapshot. *)
Definition add_favorite (coordinator : TGTGDataUpdateCoordinator.t)
    (entities : list TGTGSensor.t) (item_id : pyval)
  : res (list TGTGSensor.t) :=
  if negb (py_eq_str item_id "orders") then
    sensor ← TGTGSensor.__init__ coordinator item_id;
    Ok (entities ++ [sensor])
  else Ok entities.

(** [async_setup_platform], from the validated configuration: [item] is
    [config.get(CONF_ITEM, [""])] and [tgtg_client] the client built by
    [create_tgtg_client] from the tokens. The result is the coordinator and
    the list given to [add_entities]. *)
Definition async_setup_platform (item : list string)
    (tgtg_client : TgtgClient)
  : res (TGTGDataUpdateCoordinator.t * list TGTGSensor.t) :=
  let coordinator := TGTGDataUpdateCoordinator.__init__ tgtg_client item in
  let coordinator := async_refresh coordinator in
  let entities : list TGTGSensor.t := [] in
  entities ←
    (if bool_decide (item ≠ [""]) then
       for_each (add_configured coordinator) item entities
     else
       let '(entities, raised) :=
         match data_iter (data coordinator) with
         | Ok keys => for_each_keep (add_favorite coordinator) keys entities
         | Err e => (entities, Some e)
         end in
       match raised with
       | None => Ok entities
       | Some e =>
           try_except (Err e) [KeyError; TypeError] (Ok entities)
       end);
  Ok (coordinator, entities).

End Platform.

(** ** Notions used to state further properties *)

Module More.

Import TGTGDataUpdateCoordinator Coordinator.

(** The exception classes that the conversions and the arithmetic
    ([int], [pow], [/], [+] with a float) add to those of subscripting. *)
Definition conversion_error (e : pyexn) : Prop :=
  exn_cls e = ValueError ∨ exn_cls e = OverflowError ∨
  exn_cls e = ZeroDivisionError.

(** Every exception of the interpreter that the projection can meet. *)
Definition known_error (e : pyexn) : Prop :=
  Sensor.lookup_error e ∨ conversion_error e.

(** [r] raises nothing, or an exception that satisfies [P]. *)
Definition raises_only {A} (P : pyexn → Prop) (r : res A) : Prop :=
  ∀ e, r = Err e → P e.

(** The two coordinators get the same answers to the calls that their
    policy makes. *)
Definition same_answers (self1 self2 : TGTGDataUpdateCoordinator.t) : Prop :=
  items self1 = items self2 ∧
  if bool_decide (items self1 ≠ [""])
  then ∀ id, id ∈ items self1 →
         get_item (tgtg_client self1) id = get_item (tgtg_client self2) id
  else get_favorites (tgtg_client self1) = get_favorites (tgtg_client self2).

(** A favorite entry that cannot be stored: it has no [item.item_id], or
    one that is not hashable. *)
Definition unusable_entry (entry : pyval) : Prop :=
  match entry_key entry with
  | Ok k => key_norm k = None
  | Err _ => True
  end.




(** The address of a listing on the sharing site. *)
Definition item_url (item_id : pyval) : pyval :=
  PStr ("https://share.toogoodtogo.com/item/" +:+ py_str item_id).

(** A key of the snapshot that stands for a listing. *)
Definition is_listing (k : pyval) : Prop := py_eq_str k "orders" = false.

#[global] Instance is_listing_dec k : Decision (is_listing k).
Proof. unfold is_listing. apply _. Defined.

(** The keys of a dictionary, as the classes of their equality. *)
Definition key_classes (d : pydict) : list (option pykey) :=
  key_norm <$> map fst d.

(** The sensor is what the constructor gives for its identifier on this
    coordinator. *)
Definition constructed (coordinator : TGTGDataUpdateCoordinator.t)
    (sensor : TGTGSensor.t) : Prop :=
  TGTGSensor.__init__ coordinator (TGTGSensor.item_id sensor) = Ok sensor.

End More.

(** ** More concrete payloads *)

Module MoreExamples.

Import TGTGDataUpdateCoordinator Examples.

(** Favorites whose second entry has no [item]. *)
Definition itemless_entry : pyval :=
  PDict [(PStr "display_name", PStr "Bakery Y")].

Definition itemless_client : TgtgClient :=
  {| get_item := fun _ => Err api_error;
     get_favorites := Ok (PList [listing "1" "Bakery X" 3; itemless_entry]) |}.

Definition itemless_coordinator : TGTGDataUpdateCoordinator.t :=
  coordinator_with itemless_client [""] (Some old_snapshot).

(** The coordinator [explicit_coordinator] with another previous snapshot
    and a client that differs outside the configured identifiers. *)
Definition other_client : TgtgClient :=
  {| get_item := fun id =>
       if String.eqb id "44" then Err api_error
       else Ok (listing "77" "Bakery X" 3);
     get_favorites := Err api_error |}.

Definition other_coordinator : TGTGDataUpdateCoordinator.t :=
  coordinator_with other_client ["42"; "43"] (Some old_snapshot).

(** A listing with a pickup interval and a sold-out time. *)
Definition timed_listing : pyval :=
  PDict [(PStr "display_name", PStr "Bakery X");
         (PStr "items_available", PInt 0);
         (PStr "item", PDict [(PStr "item_id", PStr "42")]);
         (PStr "pickup_interval",
          PDict [(PStr "start", PStr "2024-05-01T16:00:00Z");
                 (PStr "end", PStr "2024-05-01T17:00:00Z")]);
         (PStr "sold_out_at", PStr "2024-05-01T09:30:00Z")].

Definition timed_fields : pydict :=
  match timed_listing with PDict fields => fields | _ => [] end.

(** Two orders for the listing 42 that changed the pickup window, and a
    later one for the listing 7. *)
Definition changed_order (item_id : string) (changed : bool) : pyval :=
  PDict [(PStr "item_id", PStr item_id);
         (PStr "quantity", PInt 1);
         (PStr "pickup_window_changed", PBool changed)].

Definition timed_snapshot : pydict :=
  [(PStr "orders",
    PList ([changed_order "42" false]
           ++ changed_order "42" true :: [changed_order "7" false]));
   (PStr "42", timed_listing)].

Definition timed_coordinator : TGTGDataUpdateCoordinator.t :=
  coordinator_with constant_client [""] (Some timed_snapshot).

Definition timed_attributes : gmap string pyval :=
  list_to_map
    [(ATTR_ITEM_ID, PStr "42");
     (ATTR_ITEM_URL, PStr "https://share.toogoodtogo.com/item/42");
     (ATTR_PICKUP_START, PStr "2024-05-01T16:00:00Z");
     (ATTR_PICKUP_END, PStr "2024-05-01T17:00:00Z");
     (ATTR_SOLDOUT_TIMESTAMP, PStr "2024-05-01T09:30:00Z");
     (ATTR_PICKUP_WINDOW_CHANGED, PBool true);
     (ATTR_ORDERS_PLACED, PInt 2);
     (ATTR_TOTAL_QUANTITY_ORDERED, PInt 2)].


Definition sensor_43 : TGTGSensor.t :=
  {| TGTGSensor.item_id := PStr "43";
     TGTGSensor._store_name := PStr "Bakery X" |}.

(** Two favorites, and the coordinator of the favorites policy on them. *)
Definition pair_client : TgtgClient :=
  {| get_item := fun _ => Err api_error;
     get_favorites :=
       Ok (PList [listing "42" "Bakery X" 3; listing "99" "Bakery Y" 0]) |}.

Definition pair_coordinator : TGTGDataUpdateCoordinator.t :=
  coordinator_with pair_client [""] None.

(** Three favorites, the second one without [display_name]. *)
Definition unnamed_favorite : pyval :=
  PDict [(PStr "items_available", PInt 1);
         (PStr "item", PDict [(PStr "item_id", PStr "50")])].

Definition partial_client : TgtgClient :=
  {| get_item := fun _ => Err api_error;
     get_favorites :=
       Ok (PList [listing "42" "Bakery X" 3; unnamed_favorite;
                  listing "99" "Bakery Y" 0]) |}.

Definition partial_coordinator : TGTGDataUpdateCoordinator.t :=
  coordinator_with partial_client [""] None.

Definition partial_snapshot : pydict :=
  [(PStr "orders", PStr "");
   (PStr "42", listing "42" "Bakery X" 3);
   (PStr "50", unnamed_favorite);
   (PStr "99", listing "99" "Bakery Y" 0)].

Definition pair_snapshot : pydict :=
  [(PStr "orders", PStr "");
   (PStr "42", listing "42" "Bakery X" 3);
   (PStr "99", listing "99" "Bakery Y" 0)].

End MoreExamples.

(* ===================================================================== *)
(** * Properties *)
(* ===================================================================== *)

(** ** The error monad *)

Lemma bind_Ok {A B} (m : res A) (f : A -> res B) (b : B) :
  m ≫= f = Ok b ↔ ∃ a, m = Ok a ∧ f a = Ok b.
Proof.
  destruct m as [a|e]; simpl; split.
  - eauto.
  - intros (a' & [= <-] & H); exact H.
  - discriminate.
  - intros (a' & [=] & _).
Qed.

Lemma bind_Err {A B} (m : res A) (f : A -> res B) (e : pyexn) :
  m = Err e → m ≫= f = Err e.
Proof. intros ->; reflexivity. Qed.

Lemma try_except_Ok {A} (body : res A) cs h a :
  body = Ok a → try_except body cs h = Ok a.
Proof. intros ->; reflexivity. Qed.

(** Splits a hypothesis [m ≫= f = Ok b] into its steps. *)
Ltac bind_inv H :=
  let a := fresh "a" in
  let Ha := fresh "Ha" in
  apply bind_Ok in H; destruct H as (a & Ha & H).

Lemma for_each_cons {A S} (body : S -> A -> res S) x l s :
  for_each body (x :: l) s = body s x ≫= for_each body l.
Proof. reflexivity. Qed.

Lemma for_each_app {A S} (body : S -> A -> res S) l1 l2 s :
  for_each body (l1 ++ l2) s = for_each body l1 s ≫= for_each body l2.
Proof.
  revert s; induction l1 as [|x l1 IH]; intros s; simpl; [reflexivity|].
  destruct (body s x); simpl; auto.
Qed.

(** ** Dictionaries *)

Lemma key_norm_str s : key_norm (PStr s) = Some (KStr s).
Proof. reflexivity. Qed.

Lemma lookup_insert_key d n k v n' :
  key_norm k = Some n →
  lookup_key (insert_key d n k v) n'
  = if decide (n = n') then Some v else lookup_key d n'.
Proof.
  intros Hk. induction d as [|[k0 v0] d IH]; simpl.
  - rewrite Hk. repeat case_decide; congruence.
  - destruct (decide (key_norm k0 = Some n)) as [H0|H0]; simpl.
    + repeat case_decide; congruence.
    + rewrite IH. repeat case_decide; congruence.
Qed.

Lemma lookup_insert_key_eq d n k v :
  key_norm k = Some n → lookup_key (insert_key d n k v) n = Some v.
Proof. intros Hk. rewrite lookup_insert_key by done. by rewrite decide_True. Qed.

Lemma lookup_insert_key_ne d n k v n' :
  key_norm k = Some n → n ≠ n' →
  lookup_key (insert_key d n k v) n' = lookup_key d n'.
Proof. intros Hk Hn. rewrite lookup_insert_key by done. by rewrite decide_False. Qed.

Lemma dict_setitem_Ok d k v d' :
  dict_setitem d k v = Ok d' ↔
  ∃ n, key_norm k = Some n ∧ d' = insert_key d n k v.
Proof.
  unfold dict_setitem. destruct (key_norm k) as [n|]; split.
  - intros [= <-]; eauto.
  - intros (n' & [= <-] & ->); reflexivity.
  - discriminate.
  - intros (n' & [=] & _).
Qed.

Lemma dict_getitem_Ok d k v :
  dict_getitem d k = Ok v ↔
  ∃ n, key_norm k = Some n ∧ lookup_key d n = Some v.
Proof.
  unfold dict_getitem. destruct (key_norm k) as [n|]; split.
  - destruct (lookup_key d n) eqn:E; [intros [= <-]; eauto|discriminate].
  - intros (n' & [= <-] & ->); reflexivity.
  - discriminate.
  - intros (n' & [=] & _).
Qed.

Lemma dict_getitem_str d s v :
  dict_getitem d (PStr s) = Ok v ↔ lookup_key d (KStr s) = Some v.
Proof.
  rewrite dict_getitem_Ok. split.
  - by intros (n & [= <-] & H).
  - eauto.
Qed.

(** ** The refresh cycle *)

Module CoordinatorFacts.

Import TGTGDataUpdateCoordinator Coordinator.

Lemma _async_update_data_eq self :
  _async_update_data self =
  match fetch_all self with
  | Ok d => Ok d
  | Err e => Err (update_failed e)
  end.
Proof.
  unfold _async_update_data, fetch_all, try_except_Exception. simpl.
  destruct (bool_decide (items self ≠ [""])); reflexivity.
Qed.

Lemma _async_update_data_Ok self d :
  _async_update_data self = Ok d ↔ fetch_all self = Ok d.
Proof. rewrite _async_update_data_eq. destruct (fetch_all self); naive_solver. Qed.

(** *** The explicit list *)

Lemma store_item_Ok client d id d' :
  store_item client d id = Ok d' ↔
  ∃ r, get_item client id = Ok r ∧ d' = insert_key d (KStr id) (PStr id) r.
Proof.
  unfold store_item. rewrite bind_Ok. split.
  - intros (r & Hr & [= <-]); eauto.
  - intros (r & Hr & ->); eauto.
Qed.

Lemma store_items_raise client ids d0 id0 e0 :
  id0 ∈ ids → get_item client id0 = Err e0 →
  ∃ id e, id ∈ ids ∧ get_item client id = Err e ∧
          for_each (store_item client) ids d0 = Err e.
Proof.
  revert d0. induction ids as [|x ids IH]; intros d0 Hin Herr.
  - by apply elem_of_nil in Hin.
  - rewrite for_each_cons.
    destruct (get_item client x) as [r|e] eqn:Hx.
    + apply elem_of_cons in Hin as [->|Hin]; [congruence|].
      destruct (IH (insert_key d0 (KStr x) (PStr x) r) Hin Herr)
        as (id & e & Hid & He & Hrun).
      exists id, e. split_and!; [by apply list_elem_of_further|done|].
      by rewrite (proj2 (store_item_Ok _ _ _ _) (ex_intro _ r (conj Hx eq_refl))).
    + exists x, e. split_and!; [by apply list_elem_of_here|done|].
      unfold store_item. by rewrite Hx.
Qed.

Lemma store_items_frame client ids d0 d n :
  for_each (store_item client) ids d0 = Ok d →
  (∀ id, id ∈ ids → n ≠ KStr id) →
  lookup_key d n = lookup_key d0 n.
Proof.
  revert d0. induction ids as [|x ids IH]; intros d0 Hrun Hn; rewrite ?for_each_cons in Hrun.
  - by injection Hrun as ->.
  - bind_inv Hrun. apply store_item_Ok in Ha as (r & Hr & ->).
    rewrite (IH _ Hrun) by (intros; apply Hn; by apply list_elem_of_further).
    apply lookup_insert_key_ne; [done|].
    intros <-. by eapply Hn; [apply list_elem_of_here|].
Qed.

Lemma store_items_lookup client ids d0 d id :
  for_each (store_item client) ids d0 = Ok d → id ∈ ids →
  ∃ r, get_item client id = Ok r ∧ lookup_key d (KStr id) = Some r.
Proof.
  revert d0. induction ids as [|x ids IH]; intros d0 Hrun Hin; rewrite ?for_each_cons in Hrun.
  - by apply elem_of_nil in Hin.
  - bind_inv Hrun. apply store_item_Ok in Ha as (r & Hr & ->).
    destruct (decide (id ∈ ids)) as [Hlater|Hlast]; [by eapply IH|].
    apply elem_of_cons in Hin as [->|Hin]; [|done].
    exists r. split; [done|].
    rewrite (store_items_frame _ _ _ _ _ Hrun) by (intros ? ? [= <-]; done).
    by apply lookup_insert_key_eq.
Qed.

(** *** The favorites *)

Lemma store_favorite_Ok d item d' :
  store_favorite d item = Ok d' ↔
  ∃ k n, entry_key item = Ok k ∧ key_norm k = Some n ∧
         d' = insert_key d n k item.
Proof.
  unfold store_favorite. rewrite bind_Ok. split.
  - intros (k & Hk & (n & Hn & ->)%dict_setitem_Ok); eauto.
  - intros (k & n & Hk & Hn & ->). exists k. split; [done|].
    apply dict_setitem_Ok; eauto.
Qed.

Lemma store_favorites_frame favs d0 d n :
  for_each store_favorite favs d0 = Ok d →
  (∀ e k, e ∈ favs → entry_key e = Ok k → key_norm k ≠ Some n) →
  lookup_key d n = lookup_key d0 n.
Proof.
  revert d0. induction favs as [|x favs IH]; intros d0 Hrun Hn; rewrite ?for_each_cons in Hrun.
  - by injection Hrun as ->.
  - bind_inv Hrun. apply store_favorite_Ok in Ha as (k & m & Hk & Hm & ->).
    rewrite (IH _ Hrun)
      by (intros e k' ?; apply Hn; by apply list_elem_of_further).
    apply lookup_insert_key_ne; [done|].
    intros <-. by eapply (Hn x k); [apply list_elem_of_here|..].
Qed.

Lemma store_favorites_keep favs d0 d n :
  for_each store_favorite favs d0 = Ok d →
  is_Some (lookup_key d0 n) → is_Some (lookup_key d n).
Proof.
  revert d0. induction favs as [|x favs IH]; intros d0 Hrun Hn; rewrite ?for_each_cons in Hrun.
  - by injection Hrun as <-.
  - bind_inv Hrun. apply store_favorite_Ok in Ha as (k & m & Hk & Hm & ->).
    apply (IH _ Hrun). rewrite lookup_insert_key by done.
    by case_decide.
Qed.

Lemma store_favorites_lookup favs d0 d pre entry post :
  for_each store_favorite favs d0 = Ok d →
  favs = pre ++ entry :: post →
  ∃ k n, entry_key entry = Ok k ∧ key_norm k = Some n ∧
    is_Some (lookup_key d n) ∧
    ((∀ e' k', e' ∈ post → entry_key e' = Ok k' → key_norm k' ≠ Some n) →
     lookup_key d n = Some entry).
Proof.
  intros Hrun ->. rewrite for_each_app in Hrun.
  apply bind_Ok in Hrun as (d1 & _ & Hrun). rewrite for_each_cons in Hrun.
  bind_inv Hrun. apply store_favorite_Ok in Ha as (k & n & Hk & Hn & ->).
  exists k, n. split_and!; [done..| |].
  - apply (store_favorites_keep _ _ _ _ Hrun).
    rewrite lookup_insert_key_eq by done. eauto.
  - intros Hlast. rewrite (store_favorites_frame _ _ _ _ Hrun Hlast).
    by apply lookup_insert_key_eq.
Qed.

Lemma store_favorites_dom favs d0 d n :
  for_each store_favorite favs d0 = Ok d →
  is_Some (lookup_key d n) →
  is_Some (lookup_key d0 n) ∨
  ∃ e k, e ∈ favs ∧ entry_key e = Ok k ∧ key_norm k = Some n.
Proof.
  revert d0. induction favs as [|x favs IH]; intros d0 Hrun Hn; rewrite ?for_each_cons in Hrun.
  - injection Hrun as <-. by left.
  - bind_inv Hrun. apply store_favorite_Ok in Ha as (k & m & Hk & Hm & ->).
    destruct (IH _ Hrun Hn) as [H0|(e & k' & He & Hk' & Hn')].
    + rewrite lookup_insert_key in H0 by done. case_decide as Hmn.
      * subst m. right. exists x, k. split_and!; [apply list_elem_of_here|done..].
      * by left.
    + right. exists e, k'. split_and!; [by apply list_elem_of_further|done..].
Qed.

Lemma lookup_placeholder n :
  lookup_key placeholder n
  = if decide (n = KStr "orders") then Some (PStr "") else None.
Proof.
  unfold placeholder. simpl. repeat case_decide; congruence.
Qed.

Lemma fetch_all_keys self d n :
  fetch_all self = Ok d →
  is_Some (lookup_key d n) ↔ n = KStr "orders" ∨ is_listing_key self n.
Proof.
  unfold fetch_all, is_listing_key, favorites_of.
  case_bool_decide as Hpolicy; intros Hrun.
  - split.
    + intros Hn.
      assert ((∃ id, id ∈ items self ∧ n = KStr id) ∨
              (∀ id, id ∈ items self → n ≠ KStr id)) as [|Hno].
      { destruct n as [| | |s]; try (right; intros; discriminate).
        destruct (decide (s ∈ items self));
          [left; eauto|right; intros id ? [= ->]; done]. }
      { by right. }
      left. rewrite (store_items_frame _ _ _ _ n Hrun) in Hn by done.
      rewrite lookup_placeholder in Hn. case_decide; [done|by destruct Hn].
    + intros [->|(id & Hid & ->)].
      * destruct (decide ("orders" ∈ items self)) as [Hin|Hout].
        -- destruct (store_items_lookup _ _ _ _ _ Hrun Hin) as (r & _ & ->); eauto.
        -- rewrite (store_items_frame _ _ _ _ _ Hrun) by (intros ? ? [= <-]; done).
           rewrite lookup_placeholder, decide_True by done. eauto.
      * destruct (store_items_lookup _ _ _ _ _ Hrun Hid) as (r & _ & ->); eauto.
  - bind_inv Hrun. bind_inv Hrun. rename a0 into favs. split.
    + intros Hn. destruct (store_favorites_dom _ _ _ _ Hrun Hn)
        as [H0|(e & k & He & Hk & Hkn)].
      * rewrite lookup_placeholder in H0. case_decide; [by left|by destruct H0].
      * right. exists favs, e, k. rewrite Ha. simpl. by rewrite Ha0.
    + intros [->|(favs' & e & k & Hf & He & Hk & Hkn)].
      * apply (store_favorites_keep _ _ _ _ Hrun).
        rewrite lookup_placeholder, decide_True by done. eauto.
      * rewrite Ha in Hf. simpl in Hf. rewrite Ha0 in Hf.
        injection Hf as <-.
        apply list_elem_of_split in He as (pre & post & ->).
        destruct (store_favorites_lookup _ _ _ _ _ _ Hrun eq_refl)
          as (k' & n' & Hk' & Hn' & Hsome & _).
        rewrite Hk in Hk'. injection Hk' as <-.
        rewrite Hkn in Hn'. by injection Hn' as <-.
Qed.

Lemma fetch_all_orders self d :
  fetch_all self = Ok d → ¬ is_listing_key self (KStr "orders") →
  lookup_key d (KStr "orders") = Some (PStr "").
Proof.
  unfold fetch_all, is_listing_key, favorites_of.
  case_bool_decide as Hpolicy; intros Hrun Hno.
  - rewrite (store_items_frame _ _ _ _ _ Hrun) by naive_solver.
    by rewrite lookup_placeholder, decide_True.
  - bind_inv Hrun. bind_inv Hrun. rename a0 into favs.
    rewrite (store_favorites_frame _ _ _ _ Hrun).
    + by rewrite lookup_placeholder, decide_True.
    + intros e k He Hk Hkn. apply Hno. exists favs, e, k.
      rewrite Ha. simpl. by rewrite Ha0.
Qed.

Lemma placeholder_kept self d :
  _async_update_data self = Ok d → ¬ is_listing_key self (KStr "orders") →
  lookup_key d (KStr "orders") = Some (PStr "").
Proof.
  intros Hrun Hno. apply _async_update_data_Ok in Hrun.
  by apply (fetch_all_orders self).
Qed.

End CoordinatorFacts.

Import TGTGDataUpdateCoordinator Coordinator CoordinatorFacts Examples Claims.

(** C2. When a fetch call of a refresh cycle ([get_item] under the explicit
    policy, [get_favorites] under the favorites policy) raises, the cycle
    raises [UpdateFailed] with the message
    ["Error communicating with TGTG API: "] followed by the message of the
    fetch error that stopped it, it returns no snapshot, and after
    [async_refresh] the coordinator still holds the snapshot it held
    before. *)
Theorem C2_fetch_error_fails_cycle (self : TGTGDataUpdateCoordinator.t)
    (e0 : pyexn) :
  fetch_raises self e0 →
  ∃ e, fetch_raises self e ∧
    _async_update_data self = Err (update_failed e) ∧
    exn_cls (update_failed e) = UpdateFailed ∧
    exn_str (update_failed e)
      = "Error communicating with TGTG API: " +:+ exn_str e ∧
    data (async_refresh self) = data self ∧
    last_update_success (async_refresh self) = false.
Proof.
  intros Hraise.
  assert (∃ e, fetch_raises self e ∧ fetch_all self = Err e) as (e & He & Hrun).
  { unfold fetch_raises, fetch_all in *. case_bool_decide.
    - destruct Hraise as (id0 & Hin & Herr).
      destruct (store_items_raise _ _ placeholder _ _ Hin Herr)
        as (id & e & ? & ? & ?).
      exists e; eauto.
    - exists e0. split; [done|]. by rewrite Hraise. }
  exists e. split_and!; [done| |done..| |].
  - by rewrite _async_update_data_eq, Hrun.
  - unfold async_refresh. by rewrite _async_update_data_eq, Hrun.
  - unfold async_refresh. by rewrite _async_update_data_eq, Hrun.
Qed.

Lemma C2_witness :
  fetch_raises failing_coordinator api_error ∧
  ∃ e, fetch_raises failing_coordinator e ∧
    _async_update_data failing_coordinator = Err (update_failed e) ∧
    exn_cls (update_failed e) = UpdateFailed ∧
    exn_str (update_failed e)
      = "Error communicating with TGTG API: " +:+ exn_str e ∧
    data (async_refresh failing_coordinator) = data failing_coordinator ∧
    last_update_success (async_refresh failing_coordinator) = false.
Proof.
  assert (fetch_raises failing_coordinator api_error) as H.
  { exists "2". split; [|reflexivity].
    apply list_elem_of_further, list_elem_of_here. }
  split; [exact H|].
  exact (C2_fetch_error_fails_cycle failing_coordinator api_error H).
Defined.

(** C6. Under the explicit policy, the keys of the snapshot of a
    successful cycle are ["orders"] and the configured identifiers, and
    each configured identifier maps to the answer that [get_item] gave for
    that identifier, whatever identifier the answer itself carries. *)
Theorem C6_explicit_snapshot_keyed_by_request
    (self : TGTGDataUpdateCoordinator.t) (d : pydict) :
  items self ≠ [""] →
  _async_update_data self = Ok d →
  (∀ n, is_Some (lookup_key d n) ↔
        n = KStr "orders" ∨ ∃ id, id ∈ items self ∧ n = KStr id) ∧
  (∀ id, id ∈ items self →
     ∃ r, get_item (tgtg_client self) id = Ok r ∧
          dict_getitem d (PStr id) = Ok r).
Proof.
  intros Hpolicy Hrun. apply _async_update_data_Ok in Hrun. split.
  - intros n. rewrite (fetch_all_keys _ _ n Hrun).
    unfold is_listing_key. by rewrite bool_decide_true.
  - intros id Hin. unfold fetch_all in Hrun.
    rewrite bool_decide_true in Hrun by done.
    destruct (store_items_lookup _ _ _ _ _ Hrun Hin) as (r & Hr & Hd).
    exists r. split; [done|]. by apply dict_getitem_str.
Qed.

Lemma C6_witness :
  items explicit_coordinator ≠ [""] ∧
  _async_update_data explicit_coordinator = Ok explicit_snapshot ∧
  ((∀ n, is_Some (lookup_key explicit_snapshot n) ↔
         n = KStr "orders" ∨
         ∃ id, id ∈ items explicit_coordinator ∧ n = KStr id) ∧
   (∀ id, id ∈ items explicit_coordinator →
      ∃ r, get_item (tgtg_client explicit_coordinator) id = Ok r ∧
           dict_getitem explicit_snapshot (PStr id) = Ok r)).
Proof.
  assert (items explicit_coordinator ≠ [""]) as H1 by discriminate.
  assert (_async_update_data explicit_coordinator = Ok explicit_snapshot)
    as H2 by reflexivity.
  split; [exact H1|]. split; [exact H2|].
  exact (C6_explicit_snapshot_keyed_by_request _ _ H1 H2).
Defined.

(** The request identifier is the key, not the identifier in the answer. *)
Example explicit_snapshot_keys :
  dict_getitem explicit_snapshot (PStr "42") = Ok (listing "77" "Bakery X" 3) ∧
  dict_contains explicit_snapshot (PStr "77") = Ok false.
Proof. split; reflexivity. Qed.

(** C7, as amended. Under the favorites policy, in the snapshot of a
    successful cycle the [item.item_id] of every favorite entry is a key,
    and it maps to that entry's payload provided that no later entry
    carries an equal [item.item_id]. *)
Theorem C7_favorites_keyed_by_payload (self : TGTGDataUpdateCoordinator.t)
    (favs : list pyval) (d : pydict) (pre post : list pyval) (entry : pyval) :
  items self = [""] →
  favorites_of self = Ok favs →
  _async_update_data self = Ok d →
  favs = pre ++ entry :: post →
  ∃ k, entry_key entry = Ok k ∧
    (∃ v, dict_getitem d k = Ok v) ∧
    ((∀ e' k', e' ∈ post → entry_key e' = Ok k' →
               key_norm k' ≠ key_norm k) →
     dict_getitem d k = Ok entry).
Proof.
  intros Hpolicy Hfavs Hrun Hsplit. apply _async_update_data_Ok in Hrun.
  unfold fetch_all in Hrun. rewrite bool_decide_false in Hrun by naive_solver.
  unfold favorites_of in Hfavs.
  destruct (get_favorites (tgtg_client self)) as [fv|]; [|discriminate].
  simpl in Hfavs, Hrun. rewrite Hfavs in Hrun. simpl in Hrun.
  destruct (store_favorites_lookup _ _ _ _ _ _ Hrun Hsplit)
    as (k & n & Hk & Hn & [v Hv] & Hlast).
  exists k. split_and!; [done| |].
  - exists v. apply dict_getitem_Ok; eauto.
  - intros Hno. apply dict_getitem_Ok. exists n. split; [done|].
    apply Hlast. intros e' k' He' Hk'. rewrite <- Hn. exact (Hno e' k' He' Hk').
Qed.

Lemma C7_witness :
  items favorites_coordinator = [""] ∧
  favorites_of favorites_coordinator = Ok [listing "77" "Bakery X" 3] ∧
  _async_update_data favorites_coordinator = Ok favorites_snapshot ∧
  [listing "77" "Bakery X" 3] = [] ++ listing "77" "Bakery X" 3 :: [] ∧
  ∃ k, entry_key (listing "77" "Bakery X" 3) = Ok k ∧
    (∃ v, dict_getitem favorites_snapshot k = Ok v) ∧
    ((∀ e' k', e' ∈ [] → entry_key e' = Ok k' → key_norm k' ≠ key_norm k) →
     dict_getitem favorites_snapshot k = Ok (listing "77" "Bakery X" 3)).
Proof.
  split_and!; [reflexivity..|].
  exact (C7_favorites_keyed_by_payload favorites_coordinator _ _ [] [] _
           eq_refl eq_refl eq_refl eq_refl).
Defined.

(** C7 as worded fails when two favorite entries carry the same
    identifier: the first one is not found under its key. *)
Lemma C7_counterexample : ¬ every_favorite_is_stored twice_coordinator.
Proof.
  intros H.
  destruct (H [listing "1" "Bakery X" 3; listing "1" "Bakery X" 0]
              twice_snapshot (listing "1" "Bakery X" 3)
              eq_refl eq_refl eq_refl (list_elem_of_here _ _))
    as (k & Hk & Hd).
  injection Hk as <-. discriminate Hd.
Qed.

(** C8, as amended. The snapshot of a successful cycle has the key
    ["orders"] and a key per configured or favorited listing, under both
    policies; ["orders"] maps to the empty placeholder unless a listing
    identifier is itself ["orders"]. *)
Theorem C8_snapshot_has_orders_key (self : TGTGDataUpdateCoordinator.t)
    (d : pydict) :
  _async_update_data self = Ok d →
  (∃ v, dict_getitem d (PStr "orders") = Ok v) ∧
  (∀ n, is_listing_key self n → is_Some (lookup_key d n)) ∧
  (¬ is_listing_key self (KStr "orders") →
   dict_getitem d (PStr "orders") = Ok (PStr "")).
Proof.
  intros Hrun. apply _async_update_data_Ok in Hrun. split_and!.
  - assert (is_Some (lookup_key d (KStr "orders"))) as [v Hv]
      by (apply (fetch_all_keys self d _ Hrun); by left).
    exists v. by apply dict_getitem_str.
  - intros n Hn. apply (fetch_all_keys self d n Hrun). by right.
  - intros Hno. apply dict_getitem_str. by apply (fetch_all_orders self).
Qed.

Lemma C8_witness :
  _async_update_data favorites_coordinator = Ok favorites_snapshot ∧
  (∃ v, dict_getitem favorites_snapshot (PStr "orders") = Ok v) ∧
  (∀ n, is_listing_key favorites_coordinator n →
        is_Some (lookup_key favorites_snapshot n)) ∧
  (¬ is_listing_key favorites_coordinator (KStr "orders") →
   dict_getitem favorites_snapshot (PStr "orders") = Ok (PStr "")).
Proof.
  split; [reflexivity|].
  exact (C8_snapshot_has_orders_key favorites_coordinator _ eq_refl).
Defined.

(** C8 as worded fails when a configured identifier is ["orders"]: the
    listing replaces the placeholder. *)
Lemma C8_counterexample : ¬ orders_is_placeholder orders_coordinator.
Proof.
  intros H. destruct (H orders_snapshot eq_refl) as [Hd _]. discriminate Hd.
Qed.

(** ** The sensor *)

Module SensorFacts.

Import TGTGSensor Sensor.

Lemma lookup_error_caught {A} (e : pyexn) (h : res A) :
  lookup_error e → try_except (Err e) [KeyError; TypeError] h = h.
Proof. unfold try_except. by intros [-> | ->]. Qed.

Lemma dict_getitem_err d k e : dict_getitem d k = Err e → lookup_error e.
Proof.
  unfold dict_getitem, unhashable, raise, lookup_error.
  repeat case_match; intros [= <-]; simpl; auto.
Qed.

Lemma py_getitem_str_err o k e : py_getitem_str o k = Err e → lookup_error e.
Proof.
  destruct o; simpl; try (intros [= <-]; right; reflexivity).
  apply dict_getitem_err.
Qed.

Lemma data_getitem_err data k e : data_getitem data k = Err e → lookup_error e.
Proof.
  destruct data; simpl; [apply dict_getitem_err|].
  intros [= <-]; right; reflexivity.
Qed.

Lemma native_value_eq coordinator self :
  native_value coordinator self =
  Ok match data_getitem (data coordinator) (item_id self) with
     | Ok entry =>
         match py_getitem_str entry "items_available" with
         | Ok v => v
         | Err _ => PNone
         end
     | Err _ => PNone
     end.
Proof.
  unfold native_value.
  destruct (data_getitem _ _) as [entry|e] eqn:Hentry; simpl.
  - destruct (py_getitem_str entry _) as [v|e] eqn:Hv; simpl; [done|].
    apply py_getitem_str_err in Hv.
    exact (lookup_error_caught e (Ok PNone) Hv).
  - apply data_getitem_err in Hentry.
    exact (lookup_error_caught e (Ok PNone) Hentry).
Qed.

(** *** Subscripts *)


Lemma subscript_cons o k ks :
  subscript o (k :: ks) = py_getitem_str o k ≫= fun o' => subscript o' ks.
Proof. reflexivity. Qed.

Lemma py_getitem_str_Ok o k v :
  py_getitem_str o k = Ok v ↔
  ∃ d, o = PDict d ∧ lookup_key d (KStr k) = Some v.
Proof.
  split.
  - destruct o; try discriminate. simpl. rewrite dict_getitem_str. eauto.
  - intros (d & -> & H). simpl. by apply dict_getitem_str.
Qed.


(** *** The attributes that a block of statements leaves alone *)

Lemma keeps_bind k (f g : attrs → res attrs) :
  keeps k f → keeps k g → keeps k (fun d => f d ≫= g).
Proof.
  intros Hf Hg d d' H. bind_inv H. by rewrite (Hg _ _ H), (Hf _ _ Ha).
Qed.

Lemma set_if_in_Ok key o path body data data' :
  set_if_in key o path body data = Ok data' ↔
  ∃ c present, subscript o path = Ok c ∧
    py_contains_str key c = Ok present ∧
    if present : bool then body data = Ok data' else data' = data.
Proof.
  unfold set_if_in. rewrite bind_Ok. split.
  - intros (c & Hc & H). bind_inv H. exists c, a. split_and!; [done..|].
    destruct a; [done|by injection H].
  - intros (c & present & Hc & Hp & H). exists c. split; [done|].
    rewrite Hp. simpl. destruct present; [done|by subst].
Qed.

Lemma keeps_set_if_in k key o path body :
  keeps k body → keeps k (set_if_in key o path body).
Proof.
  intros Hb d d' (c & present & _ & _ & H)%set_if_in_Ok.
  destruct present; [by apply Hb|by subst].
Qed.

Lemma keeps_insert k k' (e : res pyval) (f : pyval → pyval) :
  k ≠ k' → keeps k (fun d => v ← e; Ok (<[k' := f v]> d)).
Proof.
  intros Hk d d' H. bind_inv H. injection H as <-.
  by rewrite lookup_insert_ne.
Qed.

Lemma keeps_insert2 k k1 k2 (e1 e2 : res pyval) (f : pyval → pyval) :
  k ≠ k1 → k ≠ k2 →
  keeps k (fun d => v ← e1; w ← e2; Ok (<[k2 := f w]> (<[k1 := v]> d))).
Proof.
  intros H1 H2 d d' H. bind_inv H. bind_inv H. injection H as <-.
  by rewrite !lookup_insert_ne.
Qed.

(** Two attribute names differ, by assumption or by computation. *)
Ltac names_differ :=
  solve [ assumption
        | let H := fresh in intros H; vm_compute in H; discriminate H ].

Ltac solve_keeps :=
  repeat first
    [ apply keeps_set_if_in
    | apply keeps_insert2; names_differ
    | apply (keeps_insert _ _ _ (fun v => v)); names_differ
    | apply keeps_bind ].

(** From [H : F x = Ok d], where the statements [F] leave [k] alone,
    rewrites [d !! k] into [x !! k]. *)
Ltac keeps_through k H x :=
  match type of H with
  | ?lhs = Ok ?d =>
      match eval pattern x in lhs with
      | ?F _ =>
          let HF := fresh "HF" in
          assert (keeps k F) as HF by solve_keeps;
          rewrite (HF x d H); clear HF
      end
  end.

Lemma listing_attributes_names answer data k :
  listing_attributes answer = Ok data → k ∉ listing_names → data !! k = None.
Proof.
  intros Hrun Hk. unfold listing_names in Hk.
  rewrite !not_elem_of_cons in Hk. destruct_and!.
  unfold listing_attributes in Hrun. bind_inv Hrun.
  keeps_through k Hrun a. keeps_through k Ha (∅ : attrs). done.
Qed.

(** *** The price and the original value *)






(** *** The loop over the orders *)

(** A step of the loop touches no attribute but the two it copies from
    the order. *)
Lemma order_step_frame self st order st' k :
  order_step self st order = Ok st' →
  k ≠ ATTR_PICKUP_WINDOW_CHANGED → k ≠ ATTR_CANCEL_UNTIL →
  st'.1.1 !! k = st.1.1 !! k.
Proof.
  destruct st as [[data n] t]. unfold order_step. intros H Hw Hc.
  apply bind_Ok in H as ([] & _ & H); [|by injection H as <-].
  apply bind_Ok in H as (order_item & _ & H).
  destruct (py_eq_str order_item _); [|by injection H as <-].
  apply bind_Ok in H as (has_quantity & _ & H).
  apply bind_Ok in H as (t' & _ & H).
  apply bind_Ok in H as (has_changed & _ & H).
  apply bind_Ok in H as (data1 & H1 & H).
  apply bind_Ok in H as (has_cancel & _ & H).
  apply bind_Ok in H as (data2 & H2 & H).
  injection H as <-. simpl.
  assert (data2 !! k = data1 !! k) as ->.
  { destruct has_cancel; [|by injection H2 as <-].
    apply bind_Ok in H2 as (v & _ & [= <-]). by rewrite lookup_insert_ne. }
  destruct has_changed; [|by injection H1 as <-].
  apply bind_Ok in H1 as (v & _ & [= <-]). by rewrite lookup_insert_ne.
Qed.

Lemma orders_loop_frame self orders st st' k :
  for_each (order_step self) orders st = Ok st' →
  k ≠ ATTR_PICKUP_WINDOW_CHANGED → k ≠ ATTR_CANCEL_UNTIL →
  st'.1.1 !! k = st.1.1 !! k.
Proof.
  revert st. induction orders as [|o orders IH]; intros st H Hw Hc.
  - by injection H as <-.
  - rewrite for_each_cons in H. apply bind_Ok in H as (st1 & Hstep & H).
    rewrite (IH _ H Hw Hc). by eapply order_step_frame.
Qed.

Lemma orders_attributes_frame self tgtg_orders data data' k :
  orders_attributes self tgtg_orders data = Ok data' →
  k ∉ order_names → data' !! k = data !! k.
Proof.
  unfold orders_attributes, order_names. intros H Hk.
  rewrite !not_elem_of_cons in Hk. destruct_and!.
  apply bind_Ok in H as (orders & _ & H).
  apply bind_Ok in H as ([[data1 n] t] & Hloop & H).
  apply bind_Ok in H as (positive & _ & H).
  pose proof (orders_loop_frame _ _ _ _ k Hloop) as Hframe. simpl in Hframe.
  destruct positive; injection H as <-;
    rewrite ?lookup_insert_ne by done; by apply Hframe.
Qed.

Lemma orders_attributes_placed self tgtg_orders data data' :
  orders_attributes self tgtg_orders data = Ok data' →
  is_Some (data' !! ATTR_ORDERS_PLACED).
Proof.
  unfold orders_attributes. intros H.
  apply bind_Ok in H as (orders & _ & H).
  apply bind_Ok in H as ([[data1 n] t] & Hloop & H).
  apply bind_Ok in H as (positive & _ & H).
  destruct positive; injection H as <-.
  - rewrite lookup_insert_ne by done. rewrite lookup_insert_eq. eauto.
  - rewrite lookup_insert_eq. eauto.
Qed.

(** A step on an order record. *)
Lemma order_step_record self data n t order :
  order_record order →
  let x := py_str (item_id self) in
  ∃ data',
    order_step self (data, n, PInt t) order
    = Ok (data',
          n + (if order_for x order then 1 else 0),
          PInt (t + (if order_for x order then order_quantity order else 0))).
Proof.
  intros (fields & -> & Hq) x. unfold order_step, order_for, order_quantity.
  simpl. unfold dict_contains, dict_getitem. simpl.
  destruct (lookup_key fields (KStr "item_id")) as [v|]; simpl;
    [|exists data; by rewrite !Z.add_0_r].
  fold x. destruct (py_eq_str v x); [|exists data; by rewrite !Z.add_0_r].
  destruct (lookup_key fields (KStr "quantity")) as [q|] eqn:Hquantity; simpl.
  - destruct (Hq q eq_refl) as [z ->]. simpl.
    destruct (lookup_key fields (KStr "pickup_window_changed")); simpl;
      destruct (lookup_key fields (KStr "cancel_until")); simpl; eauto.
  - rewrite Z.add_0_r.
    destruct (lookup_key fields (KStr "pickup_window_changed")); simpl;
      destruct (lookup_key fields (KStr "cancel_until")); simpl; eauto.
Qed.

Lemma orders_placed_for_cons x o orders :
  orders_placed_for x (o :: orders)
  = (if order_for x o then 1 else 0) + orders_placed_for x orders.
Proof.
  unfold orders_placed_for. destruct (order_for x o) eqn:Ho.
  - rewrite filter_cons_True by done. simpl length. lia.
  - rewrite filter_cons_False by (by rewrite Ho). lia.
Qed.

Lemma quantity_ordered_for_cons x o orders :
  quantity_ordered_for x (o :: orders)
  = (if order_for x o then order_quantity o else 0)
    + quantity_ordered_for x orders.
Proof.
  unfold quantity_ordered_for. destruct (order_for x o) eqn:Ho.
  - by rewrite filter_cons_True by done.
  - by rewrite filter_cons_False by (by rewrite Ho).
Qed.

Lemma orders_loop_records self orders data n t :
  Forall order_record orders →
  let x := py_str (item_id self) in
  ∃ data',
    for_each (order_step self) orders (data, n, PInt t)
    = Ok (data', n + orders_placed_for x orders,
          PInt (t + quantity_ordered_for x orders)).
Proof.
  intros Hrec x. revert data n t.
  induction Hrec as [|o orders Ho _ IH]; intros data n t.
  - exists data. unfold orders_placed_for, quantity_ordered_for. simpl.
    by rewrite !Z.add_0_r.
  - rewrite for_each_cons.
    destruct (order_step_record self data n t o Ho) as (data1 & ->).
    simpl. fold x.
    destruct (IH data1 (n + (if order_for x o then 1 else 0))
                (t + (if order_for x o then order_quantity o else 0)))
      as (data' & ->).
    exists data'. rewrite orders_placed_for_cons, quantity_ordered_for_cons.
    by rewrite !Z.add_assoc.
Qed.

Lemma orders_attributes_list self orders data data' n t :
  for_each (order_step self) orders (data, 0, PInt 0) = Ok (data', n, PInt t) →
  orders_attributes self (PList orders) data
  = Ok (if 0 <? t
        then <[ATTR_TOTAL_QUANTITY_ORDERED := PInt t]>
               (<[ATTR_ORDERS_PLACED := PInt n]> data')
        else <[ATTR_ORDERS_PLACED := PInt n]> data').
Proof.
  intros H. unfold orders_attributes, py_iter. cbn [mbind res_bind].
  rewrite H. cbn [mbind res_bind py_gt_zero]. by destruct (0 <? t).
Qed.


(** *** The body of [extra_state_attributes] *)

Lemma extra_state_attributes_eq coordinator self d answer :
  data coordinator = Some d →
  dict_getitem d (item_id self) = Ok answer →
  extra_state_attributes coordinator self =
  try_except
    (listing_attributes answer ≫=
     orders_attributes self (default (PList []) (lookup_key d (KStr "orders"))))
    [KeyError; TypeError] (Ok ∅).
Proof.
  intros Hd Hanswer. unfold extra_state_attributes. rewrite Hd. simpl.
  by rewrite Hanswer.
Qed.

Lemma extra_state_attributes_derived coordinator self d answer attrs :
  data coordinator = Some d →
  dict_getitem d (item_id self) = Ok answer →
  extra_state_attributes coordinator self = Ok attrs → attrs ≠ ∅ →
  ∃ base, listing_attributes answer = Ok base ∧
    orders_attributes self
      (default (PList []) (lookup_key d (KStr "orders"))) base = Ok attrs.
Proof.
  intros Hd Hanswer Hrun Hne.
  rewrite (extra_state_attributes_eq _ _ _ _ Hd Hanswer) in Hrun.
  unfold try_except in Hrun.
  destruct (listing_attributes answer ≫= _) as [a|e] eqn:Hbody.
  - injection Hrun as ->. by apply bind_Ok in Hbody.
  - destruct (existsb _ _); [|discriminate]. by injection Hrun as <-.
Qed.

End SensorFacts.

Import TGTGSensor SensorFacts Sensor.

(** C1. Constructing the sensor of a listing whose snapshot entry has no
    [display_name] raises [KeyError]: the constructor subscripts the entry
    without a guard. *)
Theorem C1_init_raises_without_display_name :
  data nameless_coordinator
    = Some [(PStr "orders", PStr ""); (PStr "123", nameless_listing)] ∧
  TGTGSensor.__init__ nameless_coordinator (PStr "123")
    = Err (PyExn KeyError "'display_name'").
Proof. split; reflexivity. Qed.

(** The same for every snapshot: an entry that is a dictionary without the
    key [display_name] makes the constructor raise [KeyError]. *)
Lemma init_raises_without_display_name coordinator d item_id entry :
  data coordinator = Some d →
  dict_getitem d item_id = Ok (PDict entry) →
  dict_contains entry (PStr "display_name") = Ok false →
  TGTGSensor.__init__ coordinator item_id
    = Err (PyExn KeyError "'display_name'").
Proof.
  intros Hd Hentry Hno. unfold TGTGSensor.__init__. rewrite Hd. simpl.
  rewrite Hentry. simpl. unfold dict_getitem, dict_contains in *. simpl in *.
  destruct (lookup_key entry (KStr "display_name"));
    [discriminate Hno|reflexivity].
Qed.

(** C3. A price whose [minor_units] is not a number makes the attribute
    projection raise [ValueError], which the [except (KeyError, TypeError)]
    clause lets through. *)
Theorem C3_attributes_raise_on_non_numeric_price :
  data unpriced_coordinator
    = Some [(PStr "orders", PStr ""); (PStr "42", unpriced_listing)] ∧
  TGTGSensor.__init__ unpriced_coordinator (PStr "42") = Ok sensor_42 ∧
  extra_state_attributes unpriced_coordinator sensor_42
    = Err (PyExn ValueError "invalid literal for int() with base 10: 'abc'").
Proof. split_and!; reflexivity. Qed.

(** C9. Reading the state never raises. It is the listing's
    [items_available] when the snapshot has the listing and the listing has
    the field, and [None] when the listing or the field is missing. *)
Theorem C9_native_value_or_unknown (coordinator : TGTGDataUpdateCoordinator.t)
    (self : TGTGSensor.t) :
  (∃ v, native_value coordinator self = Ok v) ∧
  (∀ d entry v,
     data coordinator = Some d →
     dict_getitem d (item_id self) = Ok (PDict entry) →
     dict_getitem entry (PStr "items_available") = Ok v →
     native_value coordinator self = Ok v) ∧
  (∀ d,
     data coordinator = Some d →
     dict_contains d (item_id self) = Ok false →
     native_value coordinator self = Ok PNone) ∧
  (∀ d entry,
     data coordinator = Some d →
     dict_getitem d (item_id self) = Ok (PDict entry) →
     dict_contains entry (PStr "items_available") = Ok false →
     native_value coordinator self = Ok PNone).
Proof.
  rewrite native_value_eq. split_and!.
  - eauto.
  - intros d entry v -> Hentry Hv. simpl. rewrite Hentry. simpl. by rewrite Hv.
  - intros d -> Hno. simpl. unfold dict_contains, dict_getitem in *.
    destruct (key_norm (item_id self)) as [n|]; [|done].
    destruct (lookup_key d n); [discriminate Hno|done].
  - intros d entry -> Hentry Hno. simpl. rewrite Hentry. simpl.
    unfold dict_contains, dict_getitem in *. simpl in *.
    destruct (lookup_key entry _); [discriminate Hno|done].
Qed.

(** ** The examples *)

(** The two attributes [k1] and [k2] of a projection, read without
    normalising the dictionary. *)
Lemma projection_lookups (r : res (gmap string pyval)) (k1 k2 : string)
    (v1 v2 : option pyval) :
  (a ← r; Ok (a !! k1, a !! k2)) = Ok (v1, v2) →
  ∃ a, r = Ok a ∧ a !! k1 = v1 ∧ a !! k2 = v2.
Proof. destruct r as [a|]; [|discriminate]. intros [= <- <-]. eauto. Qed.

Lemma order_is_record item_id quantity : order_record (order item_id quantity).
Proof.
  eexists. split; [reflexivity|]. intros q Hq. vm_compute in Hq.
  injection Hq as <-. eauto.
Qed.

Lemma three_orders_are_records : Forall order_record three_orders.
Proof. repeat (apply Forall_cons_2; [apply order_is_record|]). apply Forall_nil_2. Qed.

Lemma listing_attributes_listing item_id display_name items_available :
  listing_attributes (listing item_id display_name items_available)
  = Ok (listing_attrs item_id).
Proof. vm_cast_no_check (eq_refl (Ok (listing_attrs item_id))). Qed.

Lemma attributes_of_sensor_77 :
  extra_state_attributes (async_refresh favorites_coordinator) sensor_77
  = Ok attributes_77.
Proof. vm_cast_no_check (eq_refl (Ok attributes_77)). Qed.




(** A price too large for a float makes the projection raise
    [OverflowError], on a sensor that the refreshed coordinator
    constructs. *)
Lemma price_overflow_escapes :
  has_amount overpriced_listing "item_price" (10 ^ 400) 2 "EUR" ∧
  TGTGSensor.__init__ overpriced_coordinator (PStr "42") = Ok sensor_42 ∧
  extra_state_attributes overpriced_coordinator sensor_42
  = Err (PyExn OverflowError "integer division result too large for a float").
Proof. split_and!; [split_and!| |]; vm_compute; reflexivity. Qed.

(** C5, as amended. When the snapshot's orders are a sequence of order
    records, a sensor whose own listing is in the snapshot and derives its
    attributes without error reports as
    [orders_placed] the count of the orders whose [item_id] is the string
    of the sensor's identifier, and as [total_quantity_ordered] the sum of
    their quantities, present only when the sum is greater than 0. With
    the orders 42 (2), 42 (1) and 7 (5), the sensor 42 reports 2 and 3, the
    sensor 99 reports 0 and no total. *)
Theorem C5_orders_are_counted_and_summed :
  (∀ coordinator self d answer base orders,
     data coordinator = Some d →
     dict_getitem d (item_id self) = Ok answer →
     listing_attributes answer = Ok base →
     dict_getitem d (PStr "orders") = Ok (PList orders) →
     Forall order_record orders →
     ∃ attrs,
       extra_state_attributes coordinator self = Ok attrs ∧
       attrs !! ATTR_ORDERS_PLACED
         = Some (PInt (orders_placed_for (py_str (item_id self)) orders)) ∧
       attrs !! ATTR_TOTAL_QUANTITY_ORDERED
         = (if 0 <? quantity_ordered_for (py_str (item_id self)) orders
            then Some (PInt (quantity_ordered_for (py_str (item_id self)) orders))
            else None)) ∧
  (∃ attrs,
     extra_state_attributes ordered_coordinator sensor_42 = Ok attrs ∧
     attrs !! ATTR_ORDERS_PLACED = Some (PInt 2) ∧
     attrs !! ATTR_TOTAL_QUANTITY_ORDERED = Some (PInt 3)) ∧
  (∃ attrs,
     extra_state_attributes ordered_coordinator sensor_99 = Ok attrs ∧
     attrs !! ATTR_ORDERS_PLACED = Some (PInt 0) ∧
     attrs !! ATTR_TOTAL_QUANTITY_ORDERED = None).
Proof.
  split_and!.
  - intros coordinator self d answer base orders Hd Hanswer Hbase Horders Hrec.
    rewrite (extra_state_attributes_eq _ _ _ _ Hd Hanswer), Hbase.
    apply dict_getitem_str in Horders. rewrite Horders.
    destruct (orders_loop_records self orders base 0 0 Hrec) as (data' & Hloop).
    pose proof (orders_loop_frame _ _ _ _ ATTR_TOTAL_QUANTITY_ORDERED Hloop)
      as Hframe.
    simpl in Hframe. rewrite !Z.add_0_l in Hloop.
    set (x := py_str (item_id self)) in *.
    set (q := quantity_ordered_for x orders) in *.
    cbn [mbind res_bind default from_option id].
    rewrite (orders_attributes_list _ _ _ _ _ _ Hloop). cbn [try_except].
    eexists. split; [reflexivity|].
    destruct (0 <? q) eqn:Hq.
    + split; [|apply lookup_insert_eq].
      rewrite lookup_insert_ne by done. apply lookup_insert_eq.
    + split; [apply lookup_insert_eq|].
      rewrite lookup_insert_ne by done.
      rewrite Hframe by done.
      apply (listing_attributes_names _ _ _ Hbase).
      unfold listing_names. rewrite !not_elem_of_cons.
      split_and!; try discriminate. apply not_elem_of_nil.
  - apply projection_lookups. vm_compute. reflexivity.
  - apply projection_lookups. vm_compute. reflexivity.
Qed.

Lemma C5_witness :
  data ordered_coordinator = Some ordered_snapshot ∧
  dict_getitem ordered_snapshot (item_id sensor_42)
    = Ok (listing "42" "Bakery X" 3) ∧
  listing_attributes (listing "42" "Bakery X" 3) = Ok (listing_attrs "42") ∧
  dict_getitem ordered_snapshot (PStr "orders") = Ok (PList three_orders) ∧
  Forall order_record three_orders ∧
  ∃ attrs,
    extra_state_attributes ordered_coordinator sensor_42 = Ok attrs ∧
    attrs !! ATTR_ORDERS_PLACED
      = Some (PInt (orders_placed_for "42" three_orders)) ∧
    attrs !! ATTR_TOTAL_QUANTITY_ORDERED
      = (if 0 <? quantity_ordered_for "42" three_orders
         then Some (PInt (quantity_ordered_for "42" three_orders))
         else None).
Proof.
  pose proof (listing_attributes_listing "42" "Bakery X" 3) as H3.
  pose proof three_orders_are_records as H5.
  split_and!; [reflexivity|reflexivity|exact H3|reflexivity|exact H5|].
  exact (proj1 C5_orders_are_counted_and_summed ordered_coordinator sensor_42
           ordered_snapshot _ _ three_orders eq_refl eq_refl H3 eq_refl H5).
Defined.

(** C5 as worded fails for a sensor whose listing does not derive: the
    listing 42 has a price without fields, the projection is the empty
    dictionary and the two orders for 42 are not reported. *)
Lemma C5_counterexample :
  ¬ orders_are_reported priceless_ordered_coordinator sensor_42.
Proof.
  intros H.
  destruct (H _ three_orders eq_refl eq_refl three_orders_are_records)
    as (attrs & Hrun & Hplaced & _).
  vm_compute in Hrun. injection Hrun as <-. discriminate Hplaced.
Qed.

Lemma C9_witness :
  data (async_refresh favorites_coordinator) = Some favorites_snapshot ∧
  dict_getitem favorites_snapshot (item_id sensor_77)
    = Ok (listing "77" "Bakery X" 3) ∧
  dict_contains favorites_snapshot (item_id sensor_99) = Ok false ∧
  native_value (async_refresh favorites_coordinator) sensor_77 = Ok (PInt 3) ∧
  native_value (async_refresh favorites_coordinator) sensor_99 = Ok PNone.
Proof.
  split_and!; [reflexivity..| |].
  - exact (proj1 (proj2 (C9_native_value_or_unknown
                           (async_refresh favorites_coordinator) sensor_77))
             favorites_snapshot _ (PInt 3) eq_refl eq_refl eq_refl).
  - exact (proj1 (proj2 (proj2 (C9_native_value_or_unknown
                                  (async_refresh favorites_coordinator) sensor_99)))
             favorites_snapshot eq_refl eq_refl).
Defined.

(** C10, as amended. On a snapshot of the coordinator in which no listing
    identifier is ["orders"], the orders are the empty string: for every
    sensor whose listing attributes derive without error, the projection
    succeeds, adds [orders_placed = 0] to them, and has none of
    [total_quantity_ordered], [pickup_window_changed], [cancel_until]. *)
Theorem C10_placeholder_orders_report_nothing
    (producer coordinator : TGTGDataUpdateCoordinator.t) (d : pydict)
    (self : TGTGSensor.t) (answer : pyval) (base : gmap string pyval) :
  _async_update_data producer = Ok d →
  ¬ is_listing_key producer (KStr "orders") →
  data coordinator = Some d →
  dict_getitem d (item_id self) = Ok answer →
  listing_attributes answer = Ok base →
  dict_getitem d (PStr "orders") = Ok (PStr "") ∧
  ∃ attrs,
    extra_state_attributes coordinator self = Ok attrs ∧
    attrs = <[ATTR_ORDERS_PLACED := PInt 0]> base ∧
    attrs !! ATTR_ORDERS_PLACED = Some (PInt 0) ∧
    attrs !! ATTR_TOTAL_QUANTITY_ORDERED = None ∧
    attrs !! ATTR_PICKUP_WINDOW_CHANGED = None ∧
    attrs !! ATTR_CANCEL_UNTIL = None.
Proof.
  intros Hrun Hno Hd Hanswer Hbase.
  pose proof (placeholder_kept _ _ Hrun Hno) as Horders.
  split; [by apply dict_getitem_str|].
  rewrite (extra_state_attributes_eq _ _ _ _ Hd Hanswer), Hbase, Horders.
  eexists. split; [reflexivity|]. split; [reflexivity|].
  assert (∀ k, k ∉ listing_names → k ≠ ATTR_ORDERS_PLACED →
               <[ATTR_ORDERS_PLACED := PInt 0]> base !! k = None) as Hnone.
  { intros k Hk Hk'. rewrite lookup_insert_ne by done.
    by apply (listing_attributes_names _ _ _ Hbase). }
  split_and!; [apply lookup_insert_eq|apply Hnone..]; try discriminate;
    unfold listing_names; rewrite !not_elem_of_cons;
    (split_and!; try discriminate; apply not_elem_of_nil).
Qed.

Lemma C10_witness :
  _async_update_data favorites_coordinator = Ok favorites_snapshot ∧
  ¬ is_listing_key favorites_coordinator (KStr "orders") ∧
  data (async_refresh favorites_coordinator) = Some favorites_snapshot ∧
  dict_getitem favorites_snapshot (item_id sensor_77)
    = Ok (listing "77" "Bakery X" 3) ∧
  listing_attributes (listing "77" "Bakery X" 3) = Ok (listing_attrs "77") ∧
  dict_getitem favorites_snapshot (PStr "orders") = Ok (PStr "") ∧
  ∃ attrs,
    extra_state_attributes (async_refresh favorites_coordinator) sensor_77
      = Ok attrs ∧
    attrs = <[ATTR_ORDERS_PLACED := PInt 0]> (listing_attrs "77") ∧
    attrs !! ATTR_ORDERS_PLACED = Some (PInt 0) ∧
    attrs !! ATTR_TOTAL_QUANTITY_ORDERED = None ∧
    attrs !! ATTR_PICKUP_WINDOW_CHANGED = None ∧
    attrs !! ATTR_CANCEL_UNTIL = None.
Proof.
  assert (¬ is_listing_key favorites_coordinator (KStr "orders")) as H2.
  { intros (favs & entry & k & Hfavs & Hentry & Hk & Hn).
    injection Hfavs as <-. apply list_elem_of_singleton in Hentry as ->.
    injection Hk as <-. discriminate Hn. }
  pose proof (listing_attributes_listing "77" "Bakery X" 3) as H5.
  refine (conj eq_refl (conj H2 (conj eq_refl (conj eq_refl (conj H5 _))))).
  exact (C10_placeholder_orders_report_nothing favorites_coordinator
                (async_refresh favorites_coordinator) favorites_snapshot
                sensor_77 _ _ eq_refl H2 eq_refl eq_refl H5).
Defined.

(** C10 as worded fails on a listing whose price has no fields: the
    projection is the empty dictionary, without [orders_placed]. *)
Lemma C10_counterexample : ¬ no_order_is_reported priceless_coordinator.
Proof.
  intros H.
  destruct (H priceless_snapshot
              (coordinator_with priceless_client ["42"] (Some priceless_snapshot))
              (PStr "42") sensor_42 eq_refl eq_refl eq_refl)
    as (attrs & Hrun & Hplaced & _).
  vm_compute in Hrun. injection Hrun as <-. discriminate Hplaced.
Qed.

(* ===================================================================== *)
(** * Further properties *)
(* ===================================================================== *)

Import Platform More.

(** ** The refresh cycle *)

Module CycleFacts.

Lemma subscript_err o keys e : subscript o keys = Err e → lookup_error e.
Proof.
  revert o. induction keys as [|k keys IH]; intros o; [discriminate|].
  rewrite subscript_cons.
  destruct (py_getitem_str o k) as [o'|e'] eqn:Hk; simpl.
  - apply IH.
  - intros [= <-]. by eapply py_getitem_str_err.
Qed.

Lemma store_favorite_err d entry e :
  store_favorite d entry = Err e → lookup_error e.
Proof.
  unfold store_favorite, entry_key.
  destruct (subscript entry _) as [k|e'] eqn:Hk; simpl.
  - unfold dict_setitem, unhashable, raise.
    destruct (key_norm k); [discriminate|]. intros [= <-]. by right.
  - intros [= <-]. by eapply subscript_err.
Qed.

Lemma unusable_entry_not_stored d entry :
  unusable_entry entry → ∃ e, store_favorite d entry = Err e.
Proof.
  unfold unusable_entry, store_favorite.
  destruct (entry_key entry) as [k|e]; simpl; [|eauto].
  unfold dict_setitem. intros ->. unfold unhashable, raise. eauto.
Qed.

Lemma store_favorites_unusable favs d0 entry :
  entry ∈ favs → unusable_entry entry →
  ∃ e, for_each store_favorite favs d0 = Err e ∧ lookup_error e.
Proof.
  revert d0. induction favs as [|x favs IH]; intros d0 Hin Hbad.
  - by apply elem_of_nil in Hin.
  - rewrite for_each_cons.
    destruct (store_favorite d0 x) as [d1|e] eqn:Hx; simpl.
    + apply elem_of_cons in Hin as [->|Hin].
      * destruct (unusable_entry_not_stored d0 x Hbad) as [e He]. congruence.
      * by apply IH.
    + exists e. split; [done|]. by eapply store_favorite_err.
Qed.

Lemma store_items_ext client1 client2 ids d0 :
  (∀ id, id ∈ ids → get_item client1 id = get_item client2 id) →
  for_each (store_item client1) ids d0 = for_each (store_item client2) ids d0.
Proof.
  revert d0. induction ids as [|x ids IH]; intros d0 Hsame; [done|].
  rewrite !for_each_cons.
  assert (store_item client1 d0 x = store_item client2 d0 x) as ->.
  { unfold store_item. by rewrite (Hsame x) by apply list_elem_of_here. }
  destruct (store_item client2 d0 x) as [d1|]; simpl; [|done].
  apply IH. intros id Hid. apply Hsame. by apply list_elem_of_further.
Qed.

Lemma insert_key_fresh d n k v :
  lookup_key d n = None → insert_key d n k v = d ++ [(k, v)].
Proof.
  induction d as [|[k0 v0] d IH]; simpl; [done|].
  case_decide; [done|]. intros Hd. by rewrite IH.
Qed.

Lemma lookup_key_app d1 d2 n :
  lookup_key (d1 ++ d2) n
  = match lookup_key d1 n with Some v => Some v | None => lookup_key d2 n end.
Proof.
  induction d1 as [|[k0 v0] d1 IH]; simpl; [done|]. by case_decide.
Qed.

Lemma store_items_fresh client ids d0 d :
  NoDup ids → (∀ id, id ∈ ids → lookup_key d0 (KStr id) = None) →
  for_each (store_item client) ids d0 = Ok d →
  ∃ answers,
    Forall2 (fun id r => get_item client id = Ok r) ids answers ∧
    d = d0 ++ zip (PStr <$> ids) answers.
Proof.
  revert d0. induction ids as [|x ids IH]; intros d0 Hnodup Hfresh Hrun.
  - injection Hrun as <-. exists []. split; [constructor|].
    simpl. by rewrite app_nil_r.
  - rewrite for_each_cons in Hrun.
    apply bind_Ok in Hrun as (d1 & Hx & Hrun).
    apply store_item_Ok in Hx as (r & Hr & ->).
    apply NoDup_cons in Hnodup as [Hx Hnodup].
    rewrite insert_key_fresh in Hrun
      by (apply Hfresh, list_elem_of_here).
    assert (∀ id, id ∈ ids →
              lookup_key (d0 ++ [(PStr x, r)]) (KStr id) = None) as Hfresh'.
    { intros id Hid. rewrite lookup_key_app.
      rewrite Hfresh by (by apply list_elem_of_further). simpl.
      rewrite decide_False; [done|]. intros [= ->]. done. }
    destruct (IH _ Hnodup Hfresh' Hrun) as (answers & Hanswers & ->).
    exists (r :: answers). split; [by constructor|].
    rewrite <- app_assoc. reflexivity.
Qed.

End CycleFacts.

Import CycleFacts.

(** X1. One favorite entry without [item.item_id] (or with one that cannot
    be a dictionary key) fails the whole cycle: it raises [UpdateFailed]
    carrying the text of the [KeyError] or [TypeError], and the other
    favorites are not published. *)
Theorem unusable_favorite_fails_cycle (self : TGTGDataUpdateCoordinator.t)
    (favs : list pyval) (entry : pyval) :
  items self = [""] →
  favorites_of self = Ok favs →
  entry ∈ favs →
  unusable_entry entry →
  ∃ e, lookup_error e ∧
    _async_update_data self = Err (update_failed e) ∧
    data (async_refresh self) = data self.
Proof.
  intros Hpolicy Hfavs Hin Hbad.
  destruct (store_favorites_unusable favs placeholder entry Hin Hbad)
    as (e & Hrun & He).
  assert (fetch_all self = Err e) as Hall.
  { unfold fetch_all. rewrite bool_decide_false by naive_solver.
    unfold favorites_of in Hfavs.
    destruct (get_favorites (tgtg_client self)) as [fv|]; [|discriminate].
    simpl in Hfavs |- *. rewrite Hfavs. exact Hrun. }
  exists e. split; [done|].
  unfold async_refresh. rewrite _async_update_data_eq, Hall. done.
Qed.

(** X2. A cycle depends on nothing but the answers to the calls of its
    policy: [get_item] on the configured identifiers under the explicit
    policy, [get_favorites] under the favorites policy. The previous
    snapshot, the other call and the other identifiers play no part. *)
Theorem cycle_depends_on_policy_answers
    (self1 self2 : TGTGDataUpdateCoordinator.t) :
  same_answers self1 self2 →
  _async_update_data self1 = _async_update_data self2.
Proof.
  intros [Hitems Hsame].
  rewrite !_async_update_data_eq. unfold fetch_all.
  rewrite <- Hitems. destruct (bool_decide (items self1 ≠ [""])).
  - by rewrite (store_items_ext _ (tgtg_client self2) _ _ Hsame).
  - by rewrite Hsame.
Qed.

(** X3. Under the explicit policy, with pairwise distinct identifiers none
    of which is ["orders"], the snapshot of a successful cycle is the
    ["orders"] placeholder followed by each identifier with the answer of
    its request, in the order of the configuration. *)
Theorem explicit_snapshot_in_order (self : TGTGDataUpdateCoordinator.t)
    (d : pydict) :
  items self ≠ [""] →
  NoDup (items self) →
  "orders" ∉ items self →
  _async_update_data self = Ok d →
  ∃ answers,
    Forall2 (fun id r => get_item (tgtg_client self) id = Ok r)
            (items self) answers ∧
    d = (PStr "orders", PStr "") :: zip (PStr <$> items self) answers.
Proof.
  intros Hpolicy Hnodup Horders Hrun. apply _async_update_data_Ok in Hrun.
  unfold fetch_all in Hrun. rewrite bool_decide_true in Hrun by done.
  apply store_items_fresh in Hrun; [done..|].
  intros id Hid. rewrite lookup_placeholder.
  rewrite decide_False; [done|]. intros [= ->]. done.
Qed.

(** ** The exceptions of the attribute projection *)

Module RaiseFacts.

Lemma raises_only_Ok {A} P (a : A) : raises_only P (Ok a).
Proof. intros e [=]. Qed.

Lemma raises_only_bind {A B} P (m : res A) (f : A → res B) :
  raises_only P m → (∀ a, raises_only P (f a)) → raises_only P (m ≫= f).
Proof.
  intros Hm Hf e. destruct m as [a|e']; simpl; [apply Hf|].
  intros [= <-]. by apply Hm.
Qed.

Lemma raises_only_mono {A} (P Q : pyexn → Prop) (r : res A) :
  (∀ e, P e → Q e) → raises_only P r → raises_only Q r.
Proof. intros HPQ Hr e He. by apply HPQ, Hr. Qed.

Lemma raises_only_for_each {A S} P (body : S → A → res S) l s :
  (∀ s x, raises_only P (body s x)) → raises_only P (for_each body l s).
Proof.
  intros Hbody. revert s. induction l as [|x l IH]; intros s.
  - apply raises_only_Ok.
  - rewrite for_each_cons. by apply raises_only_bind.
Qed.

(** Closes [raises_only known_error r] for a primitive [r] by cases. *)
Ltac by_cases :=
  let e := fresh "e" in
  intros e; unfold raise, unhashable;
  repeat case_match; try discriminate;
  intros [= <-]; unfold known_error, lookup_error, conversion_error;
  simpl; tauto.

Lemma subscript_known o keys : raises_only known_error (subscript o keys).
Proof. intros e He. left. by eapply CycleFacts.subscript_err. Qed.

Lemma data_getitem_known data k : raises_only known_error (data_getitem data k).
Proof. intros e He. left. by eapply data_getitem_err. Qed.

Lemma py_getitem_str_known o k : raises_only known_error (py_getitem_str o k).
Proof. intros e He. left. by eapply py_getitem_str_err. Qed.

Lemma py_contains_str_known k o : raises_only known_error (py_contains_str k o).
Proof. unfold py_contains_str, dict_contains. simpl. by_cases. Qed.

Lemma py_iter_known o : raises_only known_error (py_iter o).
Proof. unfold py_iter. by_cases. Qed.

Lemma py_int_known v : raises_only known_error (py_int v).
Proof. unfold py_int. by_cases. Qed.

Lemma py_float_of_int_known z : raises_only known_error (py_float_of_int z).
Proof. unfold py_float_of_int. by_cases. Qed.

Lemma py_pow10_known n : raises_only known_error (py_pow10 n).
Proof.
  unfold py_pow10. destruct (0 <=? n); [apply raises_only_Ok|].
  apply raises_only_bind; [apply py_float_of_int_known|].
  intros; apply raises_only_Ok.
Qed.

Lemma py_truediv_known a b : raises_only known_error (py_truediv a b).
Proof.
  unfold py_truediv. destruct b; try by_cases.
  apply raises_only_bind; [apply py_float_of_int_known|].
  intros fa. by_cases.
Qed.

Lemma py_concat_known s v : raises_only known_error (py_concat s v).
Proof. unfold py_concat. by_cases. Qed.

Lemma py_add_known a b : raises_only known_error (py_add a b).
Proof.
  unfold py_add.
  destruct a, b; simpl; try by_cases;
    try (apply raises_only_bind; [apply py_float_of_int_known|];
         intros; apply raises_only_Ok).
Qed.

Lemma py_gt_zero_known v : raises_only known_error (py_gt_zero v).
Proof. unfold py_gt_zero. by_cases. Qed.

(** Goes through a block of statements. *)
Ltac statements :=
  repeat first
    [ apply raises_only_Ok
    | apply subscript_known | apply data_getitem_known
    | apply py_getitem_str_known | apply py_contains_str_known
    | apply py_iter_known | apply py_int_known | apply py_pow10_known
    | apply py_truediv_known | apply py_concat_known | apply py_add_known
    | apply py_gt_zero_known
    | apply raises_only_bind; [|intros ?]
    | match goal with
      | |- raises_only _ (if ?b then _ else _) => destruct b
      | |- raises_only _ (let '(_, _) := ?p in _) => destruct p
      | |- raises_only _ (match ?p with (_, _) => _ end) => destruct p
      end ].

Lemma amount_known answer field : raises_only known_error (amount answer field).
Proof. unfold amount. statements. Qed.

Lemma set_if_in_known key o path body data :
  (∀ d, raises_only known_error (body d)) →
  raises_only known_error (set_if_in key o path body data).
Proof. intros Hbody. unfold set_if_in. statements. apply Hbody. Qed.

Lemma listing_attributes_known answer :
  raises_only known_error (listing_attributes answer).
Proof.
  unfold listing_attributes.
  repeat first
    [ apply set_if_in_known; intros ?
    | apply amount_known
    | statements ].
Qed.

Lemma order_step_known self st order :
  raises_only known_error (order_step self st order).
Proof. destruct st as [[data n] t]. unfold order_step. statements. Qed.

Lemma orders_attributes_known self tgtg_orders data :
  raises_only known_error (orders_attributes self tgtg_orders data).
Proof.
  unfold orders_attributes.
  apply raises_only_bind; [apply py_iter_known|]. intros orders.
  apply raises_only_bind.
  - apply raises_only_for_each. intros. apply order_step_known.
  - intros [[data' n] t]. statements.
Qed.

End RaiseFacts.

Import RaiseFacts.

(** X4. Reading the attributes never raises [KeyError] or [TypeError]:
    an exception that leaves the property is a [ValueError], an
    [OverflowError] or a [ZeroDivisionError]. *)
Theorem attributes_raise_only_conversion_errors
    (coordinator : TGTGDataUpdateCoordinator.t) (self : TGTGSensor.t)
    (e : pyexn) :
  extra_state_attributes coordinator self = Err e → conversion_error e.
Proof.
  unfold extra_state_attributes.
  match goal with
  | |- try_except ?body _ _ = _ → _ =>
      assert (raises_only known_error body) as Hbody
  end.
  { apply raises_only_bind; [apply data_getitem_known|]. intros answer.
    apply raises_only_bind.
    - destruct (data coordinator); [|by_cases].
      unfold dict_get. simpl. apply raises_only_Ok.
    - intros orders. apply raises_only_bind;
        [apply listing_attributes_known|].
      intros base. apply orders_attributes_known. }
  unfold try_except.
  match goal with |- match ?body with _ => _ end = _ → _ =>
    destruct body as [a|e0] eqn:Hrun end; [discriminate|].
  destruct (Hbody e0 eq_refl) as [[Hk|Ht]|Hconv].
  - rewrite Hk. discriminate.
  - rewrite Ht. discriminate.
  - destruct (existsb _ _); [discriminate|]. by intros [= <-].
Qed.

(** ** The sensor *)

Module ProjectionFacts.

Lemma init_Ok coordinator id self :
  TGTGSensor.__init__ coordinator id = Ok self ↔
  ∃ d entry name,
    data coordinator = Some d ∧
    dict_getitem d id = Ok (PDict entry) ∧
    dict_getitem entry (PStr "display_name") = Ok name ∧
    self = {| item_id := id; _store_name := name |}.
Proof.
  unfold TGTGSensor.__init__. rewrite bind_Ok. split.
  - intros (answer & Hanswer & H).
    apply bind_Ok in H as (name & Hname & [= <-]).
    destruct (data coordinator) as [d|]; [|discriminate]. simpl in Hanswer.
    apply py_getitem_str_Ok in Hname as (entry & -> & Hname).
    exists d, entry, name. split_and!; try done. by apply dict_getitem_str.
  - intros (d & entry & name & Hd & Hentry & Hname & ->).
    exists (PDict entry). rewrite Hd. simpl. split; [done|].
    simpl. by rewrite Hname.
Qed.

Lemma init_err coordinator id e :
  TGTGSensor.__init__ coordinator id = Err e → lookup_error e.
Proof.
  unfold TGTGSensor.__init__.
  destruct (data_getitem _ _) as [answer|e'] eqn:Hanswer; simpl.
  - destruct (py_getitem_str answer _) as [name|e'] eqn:Hname; simpl;
      [discriminate|].
    intros [= <-]. by eapply py_getitem_str_err.
  - intros [= <-]. by eapply data_getitem_err.
Qed.

(** The two ways in which the projection returns. *)
Lemma extra_state_attributes_cases coordinator self attrs :
  extra_state_attributes coordinator self = Ok attrs →
  attrs = ∅ ∨
  ∃ d answer base,
    data coordinator = Some d ∧
    dict_getitem d (item_id self) = Ok answer ∧
    listing_attributes answer = Ok base ∧
    orders_attributes self
      (default (PList []) (lookup_key d (KStr "orders"))) base = Ok attrs.
Proof.
  unfold extra_state_attributes, try_except.
  match goal with |- match ?body with _ => _ end = _ → _ =>
    destruct body as [a|e0] eqn:Hrun end.
  - intros [= <-]. right.
    apply bind_Ok in Hrun as (answer & Hanswer & Hrun).
    apply bind_Ok in Hrun as (orders & Horders & Hrun).
    apply bind_Ok in Hrun as (base & Hbase & Hrun).
    destruct (data coordinator) as [d|]; [|discriminate].
    injection Horders as <-. exists d, answer, base. done.
  - destruct (existsb _ _); [|discriminate]. intros [= <-]. by left.
Qed.

Lemma order_step_count self data n t order data' n' t' :
  order_step self (data, n, t) order = Ok (data', n', t') →
  n' = n ∨ n' = n + 1.
Proof.
  unfold order_step. intros H.
  apply bind_Ok in H as ([] & _ & H); [|injection H as <- <- <-; by left].
  apply bind_Ok in H as (order_item & _ & H).
  destruct (py_eq_str order_item _); [|injection H as <- <- <-; by left].
  apply bind_Ok in H as (? & _ & H). apply bind_Ok in H as (? & _ & H).
  apply bind_Ok in H as (? & _ & H). apply bind_Ok in H as (? & _ & H).
  apply bind_Ok in H as (? & _ & H). apply bind_Ok in H as (? & _ & H).
  injection H as <- <- <-. by right.
Qed.

Lemma orders_loop_count self orders data n t data' n' t' :
  for_each (order_step self) orders (data, n, t) = Ok (data', n', t') →
  n ≤ n' ≤ n + Z.of_nat (length orders).
Proof.
  revert data n t. induction orders as [|o orders IH]; intros data n t H.
  - injection H as <- <- <-. simpl. lia.
  - rewrite for_each_cons in H.
    apply bind_Ok in H as ([[data1 n1] t1] & Hstep & H).
    apply order_step_count in Hstep. apply IH in H.
    simpl length. lia.
Qed.

End ProjectionFacts.

Import ProjectionFacts.

(** X5. The constructor succeeds exactly when the snapshot has the
    identifier, its entry is a dictionary and the entry has
    [display_name], which becomes the store name; in every other case it
    raises [KeyError] or [TypeError], also before the first successful
    refresh. *)
Theorem sensor_construction (coordinator : TGTGDataUpdateCoordinator.t)
    (id : pyval) :
  (∀ self,
     TGTGSensor.__init__ coordinator id = Ok self ↔
     ∃ d entry name,
       data coordinator = Some d ∧
       dict_getitem d id = Ok (PDict entry) ∧
       dict_getitem entry (PStr "display_name") = Ok name ∧
       self = {| item_id := id; _store_name := name |}) ∧
  (∀ e, TGTGSensor.__init__ coordinator id = Err e → lookup_error e) ∧
  (data coordinator = None →
   ∃ e, TGTGSensor.__init__ coordinator id = Err e ∧ exn_cls e = TypeError).
Proof.
  split_and!.
  - intros self. apply init_Ok.
  - apply init_err.
  - intros Hd. unfold TGTGSensor.__init__. rewrite Hd. simpl. eauto.
Qed.

(** X6. The projection has no attribute beyond the thirteen names of
    [const.py]. *)
Theorem attributes_have_known_names
    (coordinator : TGTGDataUpdateCoordinator.t) (self : TGTGSensor.t)
    (attrs : gmap string pyval) (k : string) :
  extra_state_attributes coordinator self = Ok attrs →
  k ∉ listing_names → k ∉ order_names →
  attrs !! k = None.
Proof.
  intros Hrun Hlisting Horders.
  apply extra_state_attributes_cases in Hrun
    as [->|(d & answer & base & _ & _ & Hbase & Hrun)]; [apply lookup_empty|].
  rewrite (orders_attributes_frame _ _ _ _ k Hrun Horders).
  by apply (listing_attributes_names _ _ _ Hbase).
Qed.

(** X7. A projection that is not empty has [orders_placed], an integer
    between 0 and the number of elements of the snapshot's orders. *)
Theorem orders_placed_is_bounded
    (coordinator : TGTGDataUpdateCoordinator.t) (self : TGTGSensor.t)
    (d : pydict) (tgtg_orders : pyval) (orders : list pyval)
    (attrs : gmap string pyval) :
  data coordinator = Some d →
  dict_get d (PStr "orders") (PList []) = Ok tgtg_orders →
  py_iter tgtg_orders = Ok orders →
  extra_state_attributes coordinator self = Ok attrs →
  attrs ≠ ∅ →
  ∃ n, attrs !! ATTR_ORDERS_PLACED = Some (PInt n) ∧
       0 ≤ n ≤ Z.of_nat (length orders).
Proof.
  intros Hd Hget Hiter Hrun Hne.
  apply extra_state_attributes_cases in Hrun
    as [->|(d' & answer & base & Hd' & _ & _ & Hrun)]; [done|].
  rewrite Hd in Hd'. injection Hd' as <-.
  injection Hget as <-.
  unfold orders_attributes in Hrun. rewrite Hiter in Hrun.
  apply bind_Ok in Hrun as (os & [= <-] & Hrun).
  apply bind_Ok in Hrun as ([[data' n] t] & Hloop & Hrun).
  apply bind_Ok in Hrun as (positive & _ & Hrun).
  apply orders_loop_count in Hloop. exists n. split; [|lia].
  destruct positive; injection Hrun as <-.
  - rewrite lookup_insert_ne by done. apply lookup_insert_eq.
  - apply lookup_insert_eq.
Qed.

(** ** The attributes copied from the orders and from the listing *)

Module CopyFacts.






(** The listing statements, for a listing that is a dictionary. *)
Lemma set_if_in_dict key fields path body data data' :
  set_if_in key (PDict fields) path body data = Ok data' →
  ∃ c, subscript (PDict fields) path = Ok c ∧
    match c with
    | PDict inner =>
        match lookup_key inner (KStr key) with
        | Some _ => body data = Ok data'
        | None => data' = data
        end
    | _ => True
    end.
Proof.
  intros (c & present & Hc & Hp & H)%set_if_in_Ok. exists c. split; [done|].
  destruct c as [| | | | |?|inner]; try done.
  simpl in Hp. unfold dict_contains in Hp. simpl in Hp.
  destruct (lookup_key inner (KStr key)); injection Hp as <-; done.
Qed.

End CopyFacts.

Import CopyFacts.


Module ListingFacts.

(** A projection that is not empty has the listing's attributes as
    [listing_attributes] built them. *)
Lemma derived_listing_attributes coordinator self d answer attrs :
  data coordinator = Some d →
  dict_getitem d (item_id self) = Ok answer →
  extra_state_attributes coordinator self = Ok attrs → attrs ≠ ∅ →
  ∃ base, listing_attributes answer = Ok base ∧
    ∀ k, k ∈ listing_names → attrs !! k = base !! k.
Proof.
  intros Hd Hanswer Hrun Hne.
  destruct (extra_state_attributes_derived _ _ _ _ _ Hd Hanswer Hrun Hne)
    as (base & Hbase & Horders).
  exists base. split; [done|]. intros k Hk.
  apply (orders_attributes_frame _ _ _ _ k Horders).
  unfold listing_names in Hk. unfold order_names.
  rewrite !elem_of_cons, elem_of_nil in Hk.
  rewrite !not_elem_of_cons.
  destruct Hk as [->|[->|[->|[->|[->|[->|[->|[->|[->|[]]]]]]]]]];
    split_and!; try discriminate; apply not_elem_of_nil.
Qed.

Lemma subscript_dict fields k ks v :
  lookup_key fields (KStr k) = Some v →
  subscript (PDict fields) (k :: ks) = subscript v ks.
Proof.
  intros Hv. rewrite subscript_cons.
  assert (py_getitem_str (PDict fields) k = Ok v) as ->
    by (apply py_getitem_str_Ok; eauto).
  reflexivity.
Qed.

Lemma listing_sold_out fields base :
  listing_attributes (PDict fields) = Ok base →
  base !! ATTR_SOLDOUT_TIMESTAMP = lookup_key fields (KStr "sold_out_at").
Proof.
  intros Hrun. unfold listing_attributes in Hrun.
  apply bind_Ok in Hrun as (d1 & Hitem & Hrun).
  apply bind_Ok in Hrun as (d2 & Hpickup & Hsold).
  assert (d2 !! ATTR_SOLDOUT_TIMESTAMP = None) as Hd2.
  { keeps_through ATTR_SOLDOUT_TIMESTAMP Hpickup d1.
    keeps_through ATTR_SOLDOUT_TIMESTAMP Hitem (∅ : attrs). done. }
  apply set_if_in_dict in Hsold as (c & [= <-] & Hsold).
  destruct (lookup_key fields (KStr "sold_out_at")) as [w|] eqn:Hw.
  - apply bind_Ok in Hsold as (v & Hv & [= <-]).
    rewrite (subscript_dict _ _ _ _ Hw) in Hv.
    injection Hv as <-. apply lookup_insert_eq.
  - by subst.
Qed.

Lemma listing_pickup_interval fields base :
  listing_attributes (PDict fields) = Ok base →
  match lookup_key fields (KStr "pickup_interval") with
  | None =>
      base !! ATTR_PICKUP_START = None ∧ base !! ATTR_PICKUP_END = None
  | Some (PDict interval) =>
      base !! ATTR_PICKUP_START = lookup_key interval (KStr "start") ∧
      base !! ATTR_PICKUP_END = lookup_key interval (KStr "end")
  | Some _ => True
  end.
Proof.
  intros Hrun. unfold listing_attributes in Hrun.
  apply bind_Ok in Hrun as (d1 & Hitem & Hrun).
  apply bind_Ok in Hrun as (d2 & Hpickup & Hsold).
  assert (d1 !! ATTR_PICKUP_START = None ∧ d1 !! ATTR_PICKUP_END = None)
    as [Hstart Hend].
  { split.
    - keeps_through ATTR_PICKUP_START Hitem (∅ : attrs). done.
    - keeps_through ATTR_PICKUP_END Hitem (∅ : attrs). done. }
  assert (base !! ATTR_PICKUP_START = d2 !! ATTR_PICKUP_START ∧
          base !! ATTR_PICKUP_END = d2 !! ATTR_PICKUP_END) as [-> ->].
  { split.
    - by keeps_through ATTR_PICKUP_START Hsold d2.
    - by keeps_through ATTR_PICKUP_END Hsold d2. }
  apply set_if_in_dict in Hpickup as (c & [= <-] & Hpickup).
  destruct (lookup_key fields (KStr "pickup_interval")) as [interval|] eqn:Hi;
    [|by subst].
  destruct interval as [| | | | |?|interval]; try done.
  assert (subscript (PDict fields) ["pickup_interval"] = Ok (PDict interval))
    as Hsub.
  { by rewrite (subscript_dict _ _ _ _ Hi). }
  apply bind_Ok in Hpickup as (d3 & Hs & He).
  apply set_if_in_dict in Hs as (c & Hc & Hs). rewrite Hsub in Hc.
  injection Hc as <-.
  apply set_if_in_dict in He as (c & Hc & He). rewrite Hsub in Hc.
  injection Hc as <-.
  assert (∀ key v, lookup_key interval (KStr key) = Some v →
            subscript (PDict fields) ["pickup_interval"; key] = Ok v) as Hget.
  { intros key v Hv.
    by rewrite (subscript_dict _ _ _ _ Hi), (subscript_dict _ _ _ _ Hv). }
  assert (d3 !! ATTR_PICKUP_START = lookup_key interval (KStr "start") ∧
          d3 !! ATTR_PICKUP_END = None) as [Hd3s Hd3e].
  { destruct (lookup_key interval (KStr "start")) as [v|] eqn:Hv.
    - rewrite (Hget _ _ Hv) in Hs. injection Hs as <-.
      rewrite lookup_insert_eq, lookup_insert_ne by done. done.
    - by subst. }
  destruct (lookup_key interval (KStr "end")) as [v|] eqn:Hv.
  - rewrite (Hget _ _ Hv) in He. injection He as <-.
    rewrite lookup_insert_eq, lookup_insert_ne by done. done.
  - by subst.
Qed.

Lemma listing_item_id fields base :
  listing_attributes (PDict fields) = Ok base →
  match lookup_key fields (KStr "item") with
  | None => base !! ATTR_ITEM_ID = None ∧ base !! ATTR_ITEM_URL = None
  | Some (PDict item) =>
      base !! ATTR_ITEM_ID = lookup_key item (KStr "item_id") ∧
      base !! ATTR_ITEM_URL = item_url <$> lookup_key item (KStr "item_id")
  | Some _ => True
  end.
Proof.
  intros Hrun. unfold listing_attributes in Hrun.
  apply bind_Ok in Hrun as (d1 & Hitem & Hrun).
  assert (base !! ATTR_ITEM_ID = d1 !! ATTR_ITEM_ID ∧
          base !! ATTR_ITEM_URL = d1 !! ATTR_ITEM_URL) as [-> ->].
  { split.
    - by keeps_through ATTR_ITEM_ID Hrun d1.
    - by keeps_through ATTR_ITEM_URL Hrun d1. }
  apply set_if_in_dict in Hitem as (c & [= <-] & Hitem).
  destruct (lookup_key fields (KStr "item")) as [item|] eqn:Hi; [|by subst].
  destruct item as [| | | | |?|item]; try done.
  assert (subscript (PDict fields) ["item"] = Ok (PDict item)) as Hsub.
  { by rewrite (subscript_dict _ _ _ _ Hi). }
  apply bind_Ok in Hitem as (d2 & Hid & Hrest).
  assert (d1 !! ATTR_ITEM_ID = d2 !! ATTR_ITEM_ID ∧
          d1 !! ATTR_ITEM_URL = d2 !! ATTR_ITEM_URL) as [-> ->].
  { split.
    - by keeps_through ATTR_ITEM_ID Hrest d2.
    - by keeps_through ATTR_ITEM_URL Hrest d2. }
  apply set_if_in_dict in Hid as (c & Hc & Hid). rewrite Hsub in Hc.
  injection Hc as <-.
  destruct (lookup_key item (KStr "item_id")) as [v|] eqn:Hv; [|by subst].
  assert (subscript (PDict fields) ["item"; "item_id"] = Ok v) as Hget.
  { by rewrite (subscript_dict _ _ _ _ Hi), (subscript_dict _ _ _ _ Hv). }
  rewrite Hget in Hid. injection Hid as <-.
  rewrite lookup_insert_eq, lookup_insert_ne, lookup_insert_eq by done. done.
Qed.

End ListingFacts.

Import ListingFacts.

(** X9. In a projection that is not empty, for a listing that is a
    dictionary: [soldout_timestamp] is the listing's [sold_out_at], present
    exactly when the listing has it; [pickup_start] and [pickup_end] are
    the [start] and [end] of the listing's [pickup_interval], each present
    exactly when the interval has it, and both absent without
    [pickup_interval]. *)
Theorem pickup_and_sold_out_are_copied
    (coordinator : TGTGDataUpdateCoordinator.t) (self : TGTGSensor.t)
    (d fields : pydict) (attrs : gmap string pyval) :
  data coordinator = Some d →
  dict_getitem d (item_id self) = Ok (PDict fields) →
  extra_state_attributes coordinator self = Ok attrs →
  attrs ≠ ∅ →
  attrs !! ATTR_SOLDOUT_TIMESTAMP = lookup_key fields (KStr "sold_out_at") ∧
  (lookup_key fields (KStr "pickup_interval") = None →
   attrs !! ATTR_PICKUP_START = None ∧ attrs !! ATTR_PICKUP_END = None) ∧
  (∀ interval,
     lookup_key fields (KStr "pickup_interval") = Some (PDict interval) →
     attrs !! ATTR_PICKUP_START = lookup_key interval (KStr "start") ∧
     attrs !! ATTR_PICKUP_END = lookup_key interval (KStr "end")).
Proof.
  intros Hd Hanswer Hrun Hne.
  destruct (derived_listing_attributes _ _ _ _ _ Hd Hanswer Hrun Hne)
    as (base & Hbase & Hsame).
  rewrite !Hsame by (unfold listing_names; set_solver).
  pose proof (listing_pickup_interval _ _ Hbase) as Hpickup.
  split_and!.
  - by apply listing_sold_out.
  - intros Hno. by rewrite Hno in Hpickup.
  - intros interval Hi. by rewrite Hi in Hpickup.
Qed.

(** X10. In a projection that is not empty, for a listing that is a
    dictionary whose [item] is a dictionary: [item_id] is the item's
    [item_id] and [item_url] is the sharing address followed by its string
    form, both present exactly when the item has [item_id]; without [item]
    both are absent. *)
Theorem item_id_and_url_are_derived
    (coordinator : TGTGDataUpdateCoordinator.t) (self : TGTGSensor.t)
    (d fields : pydict) (attrs : gmap string pyval) :
  data coordinator = Some d →
  dict_getitem d (item_id self) = Ok (PDict fields) →
  extra_state_attributes coordinator self = Ok attrs →
  attrs ≠ ∅ →
  (lookup_key fields (KStr "item") = None →
   attrs !! ATTR_ITEM_ID = None ∧ attrs !! ATTR_ITEM_URL = None) ∧
  (∀ item,
     lookup_key fields (KStr "item") = Some (PDict item) →
     attrs !! ATTR_ITEM_ID = lookup_key item (KStr "item_id") ∧
     attrs !! ATTR_ITEM_URL = item_url <$> lookup_key item (KStr "item_id")).
Proof.
  intros Hd Hanswer Hrun Hne.
  destruct (derived_listing_attributes _ _ _ _ _ Hd Hanswer Hrun Hne)
    as (base & Hbase & Hsame).
  rewrite !Hsame by (unfold listing_names; set_solver).
  pose proof (listing_item_id _ _ Hbase) as Hitem.
  split.
  - intros Hno. by rewrite Hno in Hitem.
  - intros item Hi. by rewrite Hi in Hitem.
Qed.

(** ** The platform setup *)

Module SetupFacts.

Lemma init_item_id coordinator id sensor :
  TGTGSensor.__init__ coordinator id = Ok sensor →
  item_id sensor = id ∧ constructed coordinator sensor.
Proof.
  intros H. pose proof H as (d & entry & name & _ & _ & _ & ->)%init_Ok.
  split; [done|]. exact H.
Qed.

(** The loop over the keys of the snapshot: what it has built when it
    stops. *)
Lemma add_favorites_spec coordinator keys entities entities' raised :
  for_each_keep (add_favorite coordinator) keys entities = (entities', raised) →
  ∃ built,
    entities' = entities ++ built ∧
    Forall (fun s => constructed coordinator s ∧ is_listing (item_id s)) built ∧
    (item_id <$> built) `prefix_of` (filter is_listing keys) ∧
    match raised with
    | None => item_id <$> built = filter is_listing keys
    | Some e =>
        lookup_error e ∧
        ∃ k, k ∈ keys ∧ is_listing k ∧
             TGTGSensor.__init__ coordinator k = Err e
    end.
Proof.
  revert entities. induction keys as [|k keys IH]; intros entities H.
  - injection H as <- <-. exists []. rewrite app_nil_r. split_and!; try done.
  - simpl in H. unfold add_favorite at 1 in H.
    destruct (py_eq_str k "orders") eqn:Hk; simpl in H.
    + destruct (IH _ H) as (built & -> & Hbuilt & Hprefix & Hraised).
      exists built.
      rewrite filter_cons_False by (unfold is_listing; by rewrite Hk).
      split_and!; try done.
      destruct raised as [e|]; [|done].
      destruct Hraised as (He & k' & Hk' & Hl & Hinit).
      split; [done|]. exists k'. split_and!; try done.
      by apply list_elem_of_further.
    + destruct (TGTGSensor.__init__ coordinator k) as [s|e] eqn:Hinit;
        simpl in H.
      * destruct (IH _ H) as (built & -> & Hbuilt & Hprefix & Hraised).
        destruct (init_item_id _ _ _ Hinit) as [Hid Hs].
        exists (s :: built). rewrite <- app_assoc.
        rewrite filter_cons_True by done.
        split_and!; try done.
        -- constructor; [|done]. split; [done|].
           unfold is_listing. by rewrite Hid.
        -- rewrite fmap_cons, Hid. by apply prefix_cons.
        -- destruct raised as [e|].
           ++ destruct Hraised as (He & k' & Hk' & Hl & Hinit').
              split; [done|]. exists k'. split_and!; try done.
              by apply list_elem_of_further.
           ++ by rewrite fmap_cons, Hid, Hraised.
      * injection H as <- <-. exists []. rewrite app_nil_r.
        split_and!; try done.
        -- apply prefix_nil.
        -- by eapply init_err.
        -- exists k. split_and!; try done. apply list_elem_of_here.
Qed.

(** The same loop, with the keys it has not reached: it stops at the first
    key whose construction raises. *)
Lemma add_favorites_split coordinator keys entities entities' raised :
  for_each_keep (add_favorite coordinator) keys entities = (entities', raised) →
  ∃ built rest,
    entities' = entities ++ built ∧
    filter is_listing keys = (item_id <$> built) ++ rest ∧
    match rest with
    | [] => raised = None
    | k :: _ =>
        ∃ e, raised = Some e ∧ TGTGSensor.__init__ coordinator k = Err e
    end.
Proof.
  revert entities. induction keys as [|k keys IH]; intros entities H.
  - injection H as <- <-. exists [], []. by rewrite app_nil_r.
  - simpl in H. unfold add_favorite at 1 in H.
    destruct (py_eq_str k "orders") eqn:Hk; simpl in H.
    + destruct (IH _ H) as (built & rest & -> & Hsplit & Hrest).
      exists built, rest.
      by rewrite filter_cons_False by (unfold is_listing; by rewrite Hk).
    + rewrite filter_cons_True by done.
      destruct (TGTGSensor.__init__ coordinator k) as [s|e] eqn:Hinit;
        simpl in H.
      * destruct (IH _ H) as (built & rest & -> & Hsplit & Hrest).
        destruct (init_item_id _ _ _ Hinit) as [Hid _].
        exists (s :: built), rest. rewrite <- app_assoc.
        split_and!; try done. by rewrite fmap_cons, Hid, Hsplit.
      * injection H as <- <-. exists [], (k :: filter is_listing keys).
        rewrite app_nil_r. split_and!; try done. by exists e.
Qed.

(** A list splits in one way only into elements that pass a test and a
    rest that starts with one that fails it. *)
Lemma first_failure_unique {A} (P : A → bool) (a r pre post : list A) (k : A) :
  a ++ r = pre ++ k :: post →
  Forall (fun x => P x = true) a →
  match r with [] => True | x :: _ => P x = false end →
  Forall (fun x => P x = true) pre →
  P k = false →
  a = pre.
Proof.
  revert pre. induction a as [|y a IH]; intros [|x pre] Heq Ha Hr Hpre Hk.
  - done.
  - simpl in Heq. subst r. apply Forall_cons in Hpre as [Hx _]. congruence.
  - injection Heq as -> _. apply Forall_cons in Ha as [Hy _]. congruence.
  - injection Heq as -> Heq.
    apply Forall_cons in Ha as [_ Ha]. apply Forall_cons in Hpre as [_ Hpre].
    f_equal. by apply IH.
Qed.

(** The loop over the configured identifiers, on a snapshot. *)
Lemma add_configured_spec coordinator d ids entities entities' :
  data coordinator = Some d →
  (∀ id, id ∈ ids → is_Some (lookup_key d (KStr id))) →
  for_each (add_configured coordinator) ids entities = Ok entities' →
  ∃ built,
    entities' = entities ++ built ∧
    Forall (constructed coordinator) built ∧
    item_id <$> built = PStr <$> ids.
Proof.
  intros Hd. revert entities.
  induction ids as [|id ids IH]; intros entities Hin H.
  - injection H as <-. exists []. by rewrite app_nil_r.
  - rewrite for_each_cons in H. apply bind_Ok in H as (entities1 & Hstep & H).
    unfold add_configured in Hstep. rewrite Hd in Hstep. simpl in Hstep.
    unfold dict_contains in Hstep. simpl in Hstep.
    rewrite bool_decide_true in Hstep by (apply Hin, list_elem_of_here).
    simpl in Hstep. apply bind_Ok in Hstep as (s & Hinit & [= <-]).
    destruct (IH _ (fun id' H' => Hin id' (list_elem_of_further _ _ _ H')) H)
      as (built & -> & Hbuilt & Hids).
    destruct (init_item_id _ _ _ Hinit) as [Hid Hs].
    exists (s :: built). rewrite <- app_assoc. split_and!; try done.
    + by constructor.
    + by rewrite !fmap_cons, Hid, Hids.
Qed.

(** Under the favorites policy the setup returns what the loop built. *)
Lemma favorites_setup_eq tgtg_client :
  let c := async_refresh (TGTGDataUpdateCoordinator.__init__ tgtg_client [""]) in
  async_setup_platform [""] tgtg_client
  = Ok (c, (match data_iter (data c) with
            | Ok keys => for_each_keep (add_favorite c) keys []
            | Err e => ([], Some e)
            end).1).
Proof.
  intros c. unfold async_setup_platform. fold c.
  rewrite bool_decide_false by naive_solver.
  destruct (data_iter (data c)) as [keys|e] eqn:Hkeys.
  - destruct (for_each_keep (add_favorite c) keys [])
      as [entities raised] eqn:Hloop.
    destruct raised as [e|]; [|done].
    apply add_favorites_spec in Hloop as (built & _ & _ & _ & He & _).
    by rewrite (lookup_error_caught e _ He).
  - assert (lookup_error e) as He.
    { unfold data_iter in Hkeys. destruct (data c); [discriminate|].
      injection Hkeys as <-. by right. }
    by rewrite (lookup_error_caught e _ He).
Qed.

(** Under the favorites policy, what the setup has added. *)
Lemma favorites_setup_split tgtg_client coordinator entities :
  async_setup_platform [""] tgtg_client = Ok (coordinator, entities) →
  match data coordinator with
  | None => entities = []
  | Some d =>
      Forall (fun s => constructed coordinator s ∧ is_listing (item_id s))
             entities ∧
      ∃ rest,
        filter is_listing (map fst d) = (item_id <$> entities) ++ rest ∧
        match rest with
        | [] => True
        | k :: _ => is_ok (TGTGSensor.__init__ coordinator k) = false
        end
  end.
Proof.
  rewrite favorites_setup_eq. intros [= <- <-].
  destruct (data _) as [d|]; [|done]. simpl.
  destruct (for_each_keep _ _ _) as [built raised] eqn:Hloop.
  pose proof Hloop as (built' & -> & Hbuilt & _)%add_favorites_spec.
  apply add_favorites_split in Hloop as (built2 & rest & [= ->] & Hsplit & Hrest).
  simpl. split; [done|]. exists rest. split; [done|].
  destruct rest as [|k rest]; [done|].
  destruct Hrest as (e & _ & ->). done.
Qed.

End SetupFacts.

Import SetupFacts.

(** X11. Under the favorites policy the setup never raises, whatever the
    client answers: it returns the refreshed coordinator and a list of
    sensors. After a failed first refresh (no snapshot) the list is empty.
    When the construction fails on a key of the snapshot, the sensors of
    the keys before it are the ones added. *)
Theorem favorites_setup_never_raises (tgtg_client : TgtgClient) :
  let coordinator :=
    async_refresh (TGTGDataUpdateCoordinator.__init__ tgtg_client [""]) in
  ∃ entities,
    async_setup_platform [""] tgtg_client = Ok (coordinator, entities) ∧
    (data coordinator = None → entities = []) ∧
    (∀ d pre k post,
       data coordinator = Some d →
       filter is_listing (map fst d) = pre ++ k :: post →
       Forall (fun k' => is_ok (TGTGSensor.__init__ coordinator k') = true)
              pre →
       is_ok (TGTGSensor.__init__ coordinator k) = false →
       item_id <$> entities = pre ∧
       Forall (constructed coordinator) entities).
Proof.
  intros coordinator.
  pose proof (favorites_setup_eq tgtg_client) as Hrun.
  cbv zeta in Hrun. fold coordinator in Hrun.
  destruct (match data_iter (data coordinator) with
            | Ok keys => for_each_keep (add_favorite coordinator) keys []
            | Err e => ([], Some e)
            end) as [entities raised].
  simpl in Hrun. exists entities. split; [exact Hrun|].
  pose proof (favorites_setup_split _ _ _ Hrun) as Hsplit.
  split.
  - intros Hd. by rewrite Hd in Hsplit.
  - intros d pre k post Hd Hkeys Hpre Hk. rewrite Hd in Hsplit.
    destruct Hsplit as (Hbuilt & rest & Hsplit & Hrest).
    rewrite Hkeys in Hsplit. split.
    + apply (first_failure_unique
               (fun k' => is_ok (TGTGSensor.__init__ coordinator k'))
               _ rest pre post k); try done.
      apply Forall_fmap. eapply Forall_impl; [exact Hbuilt|].
      intros s [Hs _]. unfold constructed in Hs. simpl. by rewrite Hs.
    + eapply Forall_impl; [exact Hbuilt|]. by intros s [? _].
Qed.

(** X12. Under the explicit policy with at least one identifier, a failed
    first refresh makes the setup raise [TypeError]: the membership test
    on the missing snapshot is outside any [try]. *)
Theorem explicit_setup_raises_after_failed_refresh (item : list string)
    (tgtg_client : TgtgClient) :
  item ≠ [""] → item ≠ [] →
  is_ok (_async_update_data
           (TGTGDataUpdateCoordinator.__init__ tgtg_client item)) = false →
  ∃ e, async_setup_platform item tgtg_client = Err e ∧
       exn_cls e = TypeError.
Proof.
  intros Hpolicy Hitem Hfails. unfold async_setup_platform.
  rewrite bool_decide_true by done.
  assert (data (async_refresh
                  (TGTGDataUpdateCoordinator.__init__ tgtg_client item))
          = None) as Hd.
  { unfold async_refresh.
    destruct (_async_update_data _); [discriminate|reflexivity]. }
  destruct item as [|id item]; [done|].
  rewrite for_each_cons.
  assert (∃ e, add_configured
                 (async_refresh
                    (TGTGDataUpdateCoordinator.__init__ tgtg_client (id :: item)))
                 [] id = Err e ∧ exn_cls e = TypeError) as (e & -> & He).
  { unfold add_configured. rewrite Hd. simpl. eauto. }
  exists e. done.
Qed.

(** X13. Under the favorites policy, the sensors that the setup adds are,
    in the order of the snapshot, those of its keys other than ["orders"],
    up to the first key whose construction fails: each sensor is the one
    the constructor gives for its key, the keys split into those of the
    sensors and a rest that is empty or starts with a key whose
    construction fails, and all the keys are covered when every listing
    has [display_name]. *)
Theorem favorites_setup_entities (tgtg_client : TgtgClient)
    (coordinator : TGTGDataUpdateCoordinator.t)
    (entities : list TGTGSensor.t) (d : pydict) :
  async_setup_platform [""] tgtg_client = Ok (coordinator, entities) →
  data coordinator = Some d →
  Forall (fun s => constructed coordinator s ∧ is_listing (item_id s))
         entities ∧
  (∃ rest,
     filter is_listing (map fst d) = (item_id <$> entities) ++ rest ∧
     match rest with
     | [] => True
     | k :: _ => is_ok (TGTGSensor.__init__ coordinator k) = false
     end) ∧
  (item_id <$> entities) `prefix_of` (filter is_listing (map fst d)) ∧
  ((∀ k, k ∈ map fst d → is_listing k →
         is_ok (TGTGSensor.__init__ coordinator k) = true) →
   item_id <$> entities = filter is_listing (map fst d)).
Proof.
  intros Hrun Hd.
  pose proof (favorites_setup_split _ _ _ Hrun) as Hsplit.
  rewrite Hd in Hsplit. destruct Hsplit as (Hbuilt & rest & Hsplit & Hrest).
  split_and!; [done|by exists rest|by exists rest|].
  intros Hall. destruct rest as [|k rest]; [by rewrite app_nil_r in Hsplit|].
  assert (k ∈ filter is_listing (map fst d)) as Hk.
  { rewrite Hsplit. apply elem_of_app. right. apply list_elem_of_here. }
  apply list_elem_of_filter in Hk as [Hl Hk].
  by rewrite (Hall k Hk Hl) in Hrest.
Qed.

(** X14. Under the explicit policy, a setup that returns has added one
    sensor per configured identifier, in the order of the configuration
    and with its repetitions, each one as the constructor gives it. *)
Theorem explicit_setup_entities (item : list string)
    (tgtg_client : TgtgClient) (coordinator : TGTGDataUpdateCoordinator.t)
    (entities : list TGTGSensor.t) :
  item ≠ [""] →
  async_setup_platform item tgtg_client = Ok (coordinator, entities) →
  coordinator
    = async_refresh (TGTGDataUpdateCoordinator.__init__ tgtg_client item) ∧
  item_id <$> entities = PStr <$> item ∧
  Forall (constructed coordinator) entities.
Proof.
  intros Hpolicy. unfold async_setup_platform.
  set (c := async_refresh (TGTGDataUpdateCoordinator.__init__ tgtg_client item)).
  rewrite bool_decide_true by done. intros Hrun.
  apply bind_Ok in Hrun as (built & Hloop & [= <- <-]).
  split; [done|].
  destruct (data c) as [d|] eqn:Hd.
  - assert (∀ id, id ∈ item → is_Some (lookup_key d (KStr id))) as Hin.
    { intros id Hid. unfold c, async_refresh in Hd.
      destruct (_async_update_data _) as [d'|] eqn:Hcycle; [|discriminate].
      injection Hd as ->.
      apply _async_update_data_Ok in Hcycle.
      apply (fetch_all_keys _ _ (KStr id) Hcycle). right.
      unfold is_listing_key. rewrite bool_decide_true by done. eauto. }
    destruct (add_configured_spec c d item [] built Hd Hin Hloop)
      as (built' & -> & Hbuilt & Hids).
    done.
  - destruct item as [|id item].
    + injection Hloop as <-. done.
    + rewrite for_each_cons in Hloop.
      assert (∃ e, add_configured c [] id = Err e) as [e He].
      { unfold add_configured. rewrite Hd. simpl. eauto. }
      rewrite He in Hloop. discriminate.
Qed.

(** ** The unique identifiers *)

Module UniqueFacts.

Lemma key_classes_cons k v d :
  key_classes ((k, v) :: d) = key_norm k :: key_classes d.
Proof. done. Qed.

Lemma insert_key_classes d n k v c :
  key_norm k = Some n →
  c ∈ key_classes (insert_key d n k v) → c ∈ key_classes d ∨ c = Some n.
Proof.
  intros Hk.
  induction d as [|[k0 v0] d IH]; cbn [insert_key].
  - rewrite key_classes_cons, Hk. intros ->%list_elem_of_singleton. by right.
  - case_decide as H0; [by left|].
    rewrite !key_classes_cons, !elem_of_cons. intros [->|Hc]; [by left; left|].
    destruct (IH Hc); [left; by right|by right].
Qed.

Lemma insert_key_nodup d n k v :
  key_norm k = Some n →
  NoDup (key_classes d) → NoDup (key_classes (insert_key d n k v)).
Proof.
  intros Hk.
  induction d as [|[k0 v0] d IH]; cbn [insert_key]; intros Hd.
  - rewrite key_classes_cons, Hk. apply NoDup_singleton.
  - case_decide as H0; [done|].
    rewrite key_classes_cons in Hd. rewrite key_classes_cons.
    apply NoDup_cons in Hd as [Hhead Hd]. apply NoDup_cons. split; [|by apply IH].
    intros [Hin|Heq]%(insert_key_classes d n k v _ Hk); done.
Qed.

Lemma store_favorites_nodup favs d0 d :
  for_each store_favorite favs d0 = Ok d →
  NoDup (key_classes d0) → NoDup (key_classes d).
Proof.
  revert d0. induction favs as [|x favs IH]; intros d0 Hrun Hd0.
  - by injection Hrun as <-.
  - rewrite for_each_cons in Hrun. apply bind_Ok in Hrun as (d1 & Hx & Hrun).
    apply store_favorite_Ok in Hx as (k & n & _ & Hn & ->).
    apply (IH _ Hrun). by apply insert_key_nodup.
Qed.

Lemma store_items_nodup client ids d0 d :
  for_each (store_item client) ids d0 = Ok d →
  NoDup (key_classes d0) → NoDup (key_classes d).
Proof.
  revert d0. induction ids as [|x ids IH]; intros d0 Hrun Hd0.
  - by injection Hrun as <-.
  - rewrite for_each_cons in Hrun. apply bind_Ok in Hrun as (d1 & Hx & Hrun).
    apply store_item_Ok in Hx as (r & _ & ->).
    apply (IH _ Hrun). by apply insert_key_nodup.
Qed.

Lemma snapshot_keys_nodup self d :
  _async_update_data self = Ok d → NoDup (map fst d).
Proof.
  intros Hrun. apply _async_update_data_Ok in Hrun.
  assert (NoDup (key_classes placeholder)) as Hp by apply NoDup_singleton.
  assert (NoDup (key_classes d)) as Hd.
  { unfold fetch_all in Hrun. destruct (bool_decide _).
    - by eapply store_items_nodup.
    - apply bind_Ok in Hrun as (fv & _ & Hrun).
      apply bind_Ok in Hrun as (favs & _ & Hrun).
      by eapply store_favorites_nodup. }
  by apply (NoDup_fmap_1 key_norm).
Qed.

Lemma favorites_entities tgtg_client coordinator entities d :
  async_setup_platform [""] tgtg_client = Ok (coordinator, entities) →
  data coordinator = Some d →
  Forall (fun s => constructed coordinator s) entities ∧
  (item_id <$> entities) `prefix_of` (filter is_listing (map fst d)).
Proof.
  rewrite favorites_setup_eq. intros [= <- <-] Hd. rewrite Hd. simpl.
  destruct (for_each_keep _ _ _) as [built raised] eqn:Hloop.
  apply add_favorites_spec in Hloop
    as (built' & -> & Hbuilt & Hprefix & Hraised).
  simpl. split; [|done].
  eapply Forall_impl; [exact Hbuilt|]. by intros s [? _].
Qed.

Lemma unique_id_str s z :
  item_id s = PStr z → unique_id s = "tgtg_" +:+ z.
Proof. unfold unique_id. by intros ->. Qed.

End UniqueFacts.

Import UniqueFacts.

(** X15. Under the favorites policy, when every key of the first snapshot
    is a string, the sensors that the setup adds have pairwise distinct
    unique identifiers. *)
Theorem favorites_setup_unique_ids (tgtg_client : TgtgClient)
    (coordinator : TGTGDataUpdateCoordinator.t)
    (entities : list TGTGSensor.t) (d : pydict) :
  async_setup_platform [""] tgtg_client = Ok (coordinator, entities) →
  data coordinator = Some d →
  (∀ k, k ∈ map fst d → ∃ z, k = PStr z) →
  NoDup (unique_id <$> entities).
Proof.
  intros Hsetup Hd Hstr.
  destruct (favorites_entities _ _ _ _ Hsetup Hd) as (Hall & Hprefix).
  assert (coordinator
          = async_refresh (TGTGDataUpdateCoordinator.__init__ tgtg_client [""]))
    as Hc.
  { rewrite favorites_setup_eq in Hsetup. by injection Hsetup as <- _. }
  assert (NoDup (map fst d)) as Hkeys.
  { rewrite Hc in Hd. unfold async_refresh in Hd.
    destruct (_async_update_data _) as [d'|] eqn:Hcycle; [|discriminate].
    injection Hd as <-. by eapply snapshot_keys_nodup. }
  assert (NoDup (item_id <$> entities)) as Hids.
  { destruct Hprefix as [rest Hrest].
    assert (NoDup (filter is_listing (map fst d))) as Hf
      by by apply NoDup_filter.
    rewrite Hrest in Hf. by apply NoDup_app in Hf as [? _]. }
  assert (∀ s, s ∈ entities → ∃ z, item_id s = PStr z) as Hs.
  { intros s Hin. apply Hstr.
    destruct Hprefix as [rest Hrest].
    assert (item_id s ∈ filter is_listing (map fst d)) as Hin'.
    { rewrite Hrest. apply elem_of_app. left. by apply list_elem_of_fmap_2. }
    by apply list_elem_of_filter in Hin' as [_ ?]. }
  apply NoDup_fmap_2_strong; [|by apply (NoDup_fmap_1 item_id)].
  intros s1 s2 H1 H2 Heq.
  destruct (Hs s1 H1) as [z1 Hz1]. destruct (Hs s2 H2) as [z2 Hz2].
  rewrite (unique_id_str _ _ Hz1), (unique_id_str _ _ Hz2) in Heq.
  apply (inj (String.app "tgtg_")) in Heq as ->.
  assert (constructed coordinator s1 ∧ constructed coordinator s2) as [C1 C2].
  { rewrite Forall_forall in Hall.
    split; [apply (Hall s1 H1)|apply (Hall s2 H2)]. }
  unfold constructed in C1, C2. rewrite Hz1 in C1. rewrite Hz2 in C2.
  congruence.
Qed.

(** ** The properties at concrete inputs *)

Import MoreExamples.

Lemma attributes_of_timed_sensor :
  extra_state_attributes timed_coordinator sensor_42 = Ok timed_attributes.
Proof. vm_cast_no_check (eq_refl (Ok timed_attributes)). Qed.


Lemma timed_attributes_not_empty : timed_attributes ≠ ∅.
Proof.
  intros H. apply (f_equal (fun m => m !! ATTR_ORDERS_PLACED)) in H.
  vm_compute in H. discriminate H.
Qed.


Lemma unusable_favorite_fails_cycle_witness :
  items itemless_coordinator = [""] ∧
  favorites_of itemless_coordinator
    = Ok [listing "1" "Bakery X" 3; itemless_entry] ∧
  itemless_entry ∈ [listing "1" "Bakery X" 3; itemless_entry] ∧
  unusable_entry itemless_entry ∧
  ∃ e, lookup_error e ∧
    _async_update_data itemless_coordinator = Err (update_failed e) ∧
    data (async_refresh itemless_coordinator) = data itemless_coordinator.
Proof.
  assert (itemless_entry ∈ [listing "1" "Bakery X" 3; itemless_entry]) as H3
    by apply list_elem_of_further, list_elem_of_here.
  assert (unusable_entry itemless_entry) as H4 by exact I.
  refine (conj eq_refl (conj eq_refl (conj H3 (conj H4 _)))).
  exact (unusable_favorite_fails_cycle itemless_coordinator _ _
           eq_refl eq_refl H3 H4).
Defined.

Lemma cycle_depends_on_policy_answers_witness :
  same_answers explicit_coordinator other_coordinator ∧
  _async_update_data explicit_coordinator
  = _async_update_data other_coordinator.
Proof.
  assert (same_answers explicit_coordinator other_coordinator) as H.
  { split; [reflexivity|]. intros id Hid. simpl in Hid.
    apply elem_of_cons in Hid as [->|Hid]; [reflexivity|].
    apply list_elem_of_singleton in Hid as ->. reflexivity. }
  exact (conj H (cycle_depends_on_policy_answers _ _ H)).
Defined.

Lemma explicit_snapshot_in_order_witness :
  items explicit_coordinator ≠ [""] ∧
  NoDup (items explicit_coordinator) ∧
  ("orders" ∉ items explicit_coordinator) ∧
  _async_update_data explicit_coordinator = Ok explicit_snapshot ∧
  ∃ answers,
    Forall2 (fun id r => get_item (tgtg_client explicit_coordinator) id = Ok r)
            (items explicit_coordinator) answers ∧
    explicit_snapshot
    = (PStr "orders", PStr "")
      :: zip (PStr <$> items explicit_coordinator) answers.
Proof.
  assert (items explicit_coordinator ≠ [""]) as H1 by discriminate.
  assert (NoDup (items explicit_coordinator)) as H2.
  { apply NoDup_cons. split; [|apply NoDup_singleton].
    intros H%list_elem_of_singleton. discriminate H. }
  assert ("orders" ∉ items explicit_coordinator) as H3.
  { intros H. apply elem_of_cons in H as [H|H]; [discriminate H|].
    apply list_elem_of_singleton in H. discriminate H. }
  refine (conj H1 (conj H2 (conj H3 (conj eq_refl _)))).
  exact (explicit_snapshot_in_order explicit_coordinator explicit_snapshot
           H1 H2 H3 eq_refl).
Defined.

Lemma attributes_raise_only_conversion_errors_witness :
  extra_state_attributes unpriced_coordinator sensor_42
    = Err (PyExn ValueError "invalid literal for int() with base 10: 'abc'") ∧
  conversion_error
    (PyExn ValueError "invalid literal for int() with base 10: 'abc'").
Proof.
  assert (extra_state_attributes unpriced_coordinator sensor_42
          = Err (PyExn ValueError "invalid literal for int() with base 10: 'abc'"))
    as H by reflexivity.
  exact (conj H (attributes_raise_only_conversion_errors _ _ _ H)).
Defined.

Lemma sensor_construction_witness :
  data (async_refresh favorites_coordinator) = Some favorites_snapshot ∧
  dict_getitem favorites_snapshot (PStr "77") = Ok (listing "77" "Bakery X" 3) ∧
  TGTGSensor.__init__ (async_refresh favorites_coordinator) (PStr "77")
    = Ok sensor_77 ∧
  (data favorites_coordinator = None →
   ∃ e, TGTGSensor.__init__ favorites_coordinator (PStr "77") = Err e ∧
        exn_cls e = TypeError).
Proof.
  refine (conj eq_refl (conj eq_refl (conj _ _))).
  - apply (proj1 (sensor_construction (async_refresh favorites_coordinator)
                    (PStr "77")) sensor_77).
    eexists favorites_snapshot, _, (PStr "Bakery X").
    split_and!; reflexivity.
  - exact (proj2 (proj2 (sensor_construction favorites_coordinator (PStr "77")))).
Defined.

Lemma attributes_have_known_names_witness :
  extra_state_attributes (async_refresh favorites_coordinator) sensor_77
    = Ok attributes_77 ∧
  ("friendly_name" ∉ listing_names) ∧ ("friendly_name" ∉ order_names) ∧
  attributes_77 !! "friendly_name" = None.
Proof.
  assert ("friendly_name" ∉ listing_names) as H2.
  { unfold listing_names. rewrite !not_elem_of_cons.
    split_and!; try discriminate. apply not_elem_of_nil. }
  assert ("friendly_name" ∉ order_names) as H3.
  { unfold order_names. rewrite !not_elem_of_cons.
    split_and!; try discriminate. apply not_elem_of_nil. }
  refine (conj attributes_of_sensor_77 (conj H2 (conj H3 _))).
  exact (attributes_have_known_names _ _ _ _ attributes_of_sensor_77 H2 H3).
Defined.

Lemma orders_placed_is_bounded_witness :
  data timed_coordinator = Some timed_snapshot ∧
  dict_get timed_snapshot (PStr "orders") (PList [])
    = Ok (PList [changed_order "42" false; changed_order "42" true;
                 changed_order "7" false]) ∧
  py_iter (PList [changed_order "42" false; changed_order "42" true;
                  changed_order "7" false])
    = Ok [changed_order "42" false; changed_order "42" true;
          changed_order "7" false] ∧
  extra_state_attributes timed_coordinator sensor_42 = Ok timed_attributes ∧
  timed_attributes ≠ ∅ ∧
  ∃ n, timed_attributes !! ATTR_ORDERS_PLACED = Some (PInt n) ∧ 0 ≤ n ≤ 3.
Proof.
  pose proof timed_attributes_not_empty as H5.
  refine (conj eq_refl (conj eq_refl (conj eq_refl
            (conj attributes_of_timed_sensor (conj H5 _))))).
  exact (orders_placed_is_bounded timed_coordinator sensor_42 _ _ _ _
           eq_refl eq_refl eq_refl attributes_of_timed_sensor H5).
Defined.


Lemma pickup_and_sold_out_are_copied_witness :
  data timed_coordinator = Some timed_snapshot ∧
  dict_getitem timed_snapshot (item_id sensor_42) = Ok (PDict timed_fields) ∧
  extra_state_attributes timed_coordinator sensor_42 = Ok timed_attributes ∧
  timed_attributes ≠ ∅ ∧
  timed_attributes !! ATTR_SOLDOUT_TIMESTAMP
    = lookup_key timed_fields (KStr "sold_out_at") ∧
  (lookup_key timed_fields (KStr "pickup_interval") = None →
   timed_attributes !! ATTR_PICKUP_START = None ∧
   timed_attributes !! ATTR_PICKUP_END = None) ∧
  (∀ interval,
     lookup_key timed_fields (KStr "pickup_interval") = Some (PDict interval) →
     timed_attributes !! ATTR_PICKUP_START = lookup_key interval (KStr "start") ∧
     timed_attributes !! ATTR_PICKUP_END = lookup_key interval (KStr "end")).
Proof.
  pose proof timed_attributes_not_empty as H4.
  refine (conj eq_refl (conj eq_refl (conj attributes_of_timed_sensor
            (conj H4 _)))).
  exact (pickup_and_sold_out_are_copied timed_coordinator sensor_42 _ _ _
           eq_refl eq_refl attributes_of_timed_sensor H4).
Defined.

Lemma item_id_and_url_are_derived_witness :
  data timed_coordinator = Some timed_snapshot ∧
  dict_getitem timed_snapshot (item_id sensor_42) = Ok (PDict timed_fields) ∧
  extra_state_attributes timed_coordinator sensor_42 = Ok timed_attributes ∧
  timed_attributes ≠ ∅ ∧
  (lookup_key timed_fields (KStr "item") = None →
   timed_attributes !! ATTR_ITEM_ID = None ∧
   timed_attributes !! ATTR_ITEM_URL = None) ∧
  (∀ item,
     lookup_key timed_fields (KStr "item") = Some (PDict item) →
     timed_attributes !! ATTR_ITEM_ID = lookup_key item (KStr "item_id") ∧
     timed_attributes !! ATTR_ITEM_URL
       = item_url <$> lookup_key item (KStr "item_id")).
Proof.
  pose proof timed_attributes_not_empty as H4.
  refine (conj eq_refl (conj eq_refl (conj attributes_of_timed_sensor
            (conj H4 _)))).
  exact (item_id_and_url_are_derived timed_coordinator sensor_42 _ _ _
           eq_refl eq_refl attributes_of_timed_sensor H4).
Defined.

Lemma explicit_setup_raises_after_failed_refresh_witness :
  ["1"; "2"] ≠ [""] ∧ ["1"; "2"] ≠ ([] : list string) ∧
  is_ok (_async_update_data
           (TGTGDataUpdateCoordinator.__init__ failing_client ["1"; "2"]))
    = false ∧
  ∃ e, async_setup_platform ["1"; "2"] failing_client = Err e ∧
       exn_cls e = TypeError.
Proof.
  assert (["1"; "2"] ≠ [""]) as H1 by discriminate.
  assert (["1"; "2"] ≠ ([] : list string)) as H2 by discriminate.
  refine (conj H1 (conj H2 (conj eq_refl _))).
  exact (explicit_setup_raises_after_failed_refresh _ failing_client
           H1 H2 eq_refl).
Defined.

Lemma partial_keys :
  filter is_listing (map fst partial_snapshot)
  = [PStr "42"] ++ PStr "50" :: [PStr "99"].
Proof. reflexivity. Qed.

Lemma favorites_setup_never_raises_witness :
  data (async_refresh partial_coordinator) = Some partial_snapshot ∧
  filter is_listing (map fst partial_snapshot)
    = [PStr "42"] ++ PStr "50" :: [PStr "99"] ∧
  Forall (fun k' => is_ok (TGTGSensor.__init__
                             (async_refresh partial_coordinator) k') = true)
         [PStr "42"] ∧
  is_ok (TGTGSensor.__init__ (async_refresh partial_coordinator) (PStr "50"))
    = false ∧
  ∃ entities,
    async_setup_platform [""] partial_client
      = Ok (async_refresh partial_coordinator, entities) ∧
    item_id <$> entities = [PStr "42"].
Proof.
  assert (data (async_refresh partial_coordinator) = Some partial_snapshot)
    as H1 by reflexivity.
  pose proof partial_keys as H2.
  assert (Forall (fun k' => is_ok (TGTGSensor.__init__
                                     (async_refresh partial_coordinator) k')
                            = true) [PStr "42"]) as H3
    by (apply Forall_cons_2; [reflexivity|apply Forall_nil_2]).
  assert (is_ok (TGTGSensor.__init__ (async_refresh partial_coordinator)
                   (PStr "50")) = false) as H4 by reflexivity.
  refine (conj H1 (conj H2 (conj H3 (conj H4 _)))).
  destruct (favorites_setup_never_raises partial_client)
    as (entities & Hrun & _ & Hkeep).
  exists entities. split; [exact Hrun|].
  exact (proj1 (Hkeep partial_snapshot [PStr "42"] (PStr "50") [PStr "99"]
                  H1 H2 H3 H4)).
Defined.

Lemma favorites_setup_entities_witness :
  async_setup_platform [""] partial_client
    = Ok (async_refresh partial_coordinator, [sensor_42]) ∧
  data (async_refresh partial_coordinator) = Some partial_snapshot ∧
  Forall (fun s => constructed (async_refresh partial_coordinator) s ∧
                   is_listing (item_id s)) [sensor_42] ∧
  (∃ rest,
     filter is_listing (map fst partial_snapshot)
       = (item_id <$> [sensor_42]) ++ rest ∧
     match rest with
     | [] => True
     | k :: _ =>
         is_ok (TGTGSensor.__init__ (async_refresh partial_coordinator) k)
         = false
     end) ∧
  (item_id <$> [sensor_42])
    `prefix_of` (filter is_listing (map fst partial_snapshot)) ∧
  ((∀ k, k ∈ map fst partial_snapshot → is_listing k →
         is_ok (TGTGSensor.__init__ (async_refresh partial_coordinator) k)
         = true) →
   item_id <$> [sensor_42] = filter is_listing (map fst partial_snapshot)).
Proof.
  refine (conj eq_refl (conj eq_refl _)).
  exact (favorites_setup_entities partial_client _ _ _ eq_refl eq_refl).
Defined.

Lemma explicit_setup_entities_witness :
  ["42"; "43"] ≠ [""] ∧
  async_setup_platform ["42"; "43"] constant_client
    = Ok (async_refresh explicit_coordinator, [sensor_42; sensor_43]) ∧
  async_refresh explicit_coordinator
    = async_refresh
        (TGTGDataUpdateCoordinator.__init__ constant_client ["42"; "43"]) ∧
  item_id <$> [sensor_42; sensor_43] = PStr <$> ["42"; "43"] ∧
  Forall (constructed (async_refresh explicit_coordinator))
         [sensor_42; sensor_43].
Proof.
  assert (["42"; "43"] ≠ [""]) as H1 by discriminate.
  refine (conj H1 (conj eq_refl _)).
  exact (explicit_setup_entities _ constant_client _ _ H1 eq_refl).
Defined.

Lemma pair_snapshot_keys k :
  k ∈ map fst pair_snapshot → ∃ z, k = PStr z.
Proof.
  cbn [map fst pair_snapshot]. rewrite !elem_of_cons, elem_of_nil.
  intros [->|[->|[->|[]]]]; eauto.
Qed.

Lemma favorites_setup_unique_ids_witness :
  async_setup_platform [""] pair_client
    = Ok (async_refresh pair_coordinator, [sensor_42; sensor_99]) ∧
  data (async_refresh pair_coordinator) = Some pair_snapshot ∧
  (∀ k, k ∈ map fst pair_snapshot → ∃ z, k = PStr z) ∧
  NoDup (unique_id <$> [sensor_42; sensor_99]).
Proof.
  refine (conj eq_refl (conj eq_refl (conj pair_snapshot_keys _))).
  exact (favorites_setup_unique_ids pair_client _ _ _ eq_refl eq_refl
           pair_snapshot_keys).
Defined.
